(** * baggage_claim: the Bedrock agent function router

    A shallow embedding of [baggage_claim.py] and the proofs of its
    contract.  The first part models the Python values and built-in
    operations the module relies on (dictionaries in insertion order,
    truthiness, subscripting, exceptions, and the writing of values
    into f-strings, which the interpreter may refuse); the second part
    is the module itself, function by function and under the names it
    has in the source, followed by the theorems, all for an arbitrary
    interpreter; the last part holds the runs on concrete inputs, taken
    on an interpreter with the default limits. *)

From Stdlib Require Import ZArith List String Ascii Bool DecimalString.
Import ListNotations.

Local Open Scope list_scope.
Local Open Scope string_scope.

(** ** Python values *)

Module Py.

(** Hashable values, the ones that can be dictionary keys. *)
Inductive key : Type :=
| KNone
| KBool (b : bool)
| KInt (n : Z)
| KStr (s : string).

#[local] Set Warnings "-register-all".

(** The values an event decoded from JSON is made of.  Floating point
    numbers are left out.  A string is a sequence of characters below
    256.  A dictionary is the list of its entries in insertion order. *)
Inductive value : Type :=
| VNone
| VBool (b : bool)
| VInt (n : Z)
| VStr (s : string)
| VList (items : list value)
| VDict (entries : list (key * value)).

Definition dict : Type := list (key * value).

(** The exception classes the module can meet.  [KeyError] carries the
    key and [ValueError] its message, which the entry point reads back
    with [str(e)]; the messages of the other three are never read. *)
Inductive exn : Type :=
| KeyError (k : key)
| ValueError (msg : string)
| TypeError
| AttributeError
| RecursionError.

(** *** Results of computations that may raise *)

Inductive result (A : Type) : Type :=
| Ok (a : A)
| Raise (e : exn).

Arguments Ok {A} a.
Arguments Raise {A} e.

Definition bind {A B : Type} (m : result A) (k : A -> result B) : result B :=
  match m with
  | Ok a => k a
  | Raise e => Raise e
  end.

Notation "x <- m ;; k" := (bind m (fun x => k))
  (at level 61, m at next level, right associativity).
Notation "m ;;; k" := (bind m (fun _ => k))
  (at level 61, right associativity).

(** *** Hashing and key equality *)

(** [hash(v)]: lists and dictionaries are unhashable. *)
Definition to_key (v : value) : option key :=
  match v with
  | VNone => Some KNone
  | VBool b => Some (KBool b)
  | VInt n => Some (KInt n)
  | VStr s => Some (KStr s)
  | VList _ | VDict _ => None
  end.

Definition of_key (k : key) : value :=
  match k with
  | KNone => VNone
  | KBool b => VBool b
  | KInt n => VInt n
  | KStr s => VStr s
  end.

Definition Z_of_bool (b : bool) : Z := if b then 1%Z else 0%Z.

(** [k1 == k2] on keys: [bool] is a subclass of [int], so [True == 1]. *)
Definition key_eqb (k1 k2 : key) : bool :=
  match k1, k2 with
  | KNone, KNone => true
  | KStr a, KStr b => String.eqb a b
  | KBool a, KBool b => Z.eqb (Z_of_bool a) (Z_of_bool b)
  | KBool a, KInt n => Z.eqb (Z_of_bool a) n
  | KInt n, KBool b => Z.eqb n (Z_of_bool b)
  | KInt n, KInt m => Z.eqb n m
  | _, _ => false
  end.

(** *** Dictionaries *)

Fixpoint dict_lookup (d : dict) (k : key) : option value :=
  match d with
  | [] => None
  | (k', v) :: rest => if key_eqb k' k then Some v else dict_lookup rest k
  end.

(** [k in d] *)
Definition dict_contains (d : dict) (k : key) : bool :=
  match dict_lookup d k with
  | Some _ => true
  | None => false
  end.

(** [d.get(k, default)] *)
Definition dict_get (d : dict) (k : key) (default : value) : value :=
  match dict_lookup d k with
  | Some v => v
  | None => default
  end.

(** [d[k]] *)
Definition dict_getitem (d : dict) (k : key) : result value :=
  match dict_lookup d k with
  | Some v => Ok v
  | None => Raise (KeyError k)
  end.

(** [d[k] = v] with a hashable [k]: an equal key keeps its place and its
    first spelling, a new key goes last. *)
Fixpoint dict_set (d : dict) (k : key) (v : value) : dict :=
  match d with
  | [] => [(k, v)]
  | (k', v') :: rest =>
      if key_eqb k' k then (k', v) :: rest else (k', v') :: dict_set rest k v
  end.

(** [d[k] = v] for any value [k]: hashing the key may fail. *)
Definition dict_setitem (d : dict) (k : value) (v : value) : result dict :=
  match to_key k with
  | Some k' => Ok (dict_set d k' v)
  | None => Raise TypeError
  end.

(** *** Operations on arbitrary values *)

(** [bool(v)] *)
Definition truthy (v : value) : bool :=
  match v with
  | VNone => false
  | VBool b => b
  | VInt n => negb (Z.eqb n 0)
  | VStr s => negb (String.eqb s "")
  | VList items => match items with [] => false | _ :: _ => true end
  | VDict entries => match entries with [] => false | _ :: _ => true end
  end.

(** [isinstance(v, list)] *)
Definition is_list (v : value) : bool :=
  match v with VList _ => true | _ => false end.

(** [v[k]] with a string [k]: only a dictionary can be subscripted by a
    string. *)
Definition getitem (v : value) (k : string) : result value :=
  match v with
  | VDict d => dict_getitem d (KStr k)
  | _ => Raise TypeError
  end.

(** [v.get(k, default)]: only a dictionary has the method. *)
Definition get (v : value) (k : string) (default : value) : result value :=
  match v with
  | VDict d => Ok (dict_get d (KStr k) default)
  | _ => Raise AttributeError
  end.

(** [v == s] for a string literal [s] *)
Definition eq_str (v : value) (s : string) : bool :=
  match v with
  | VStr s' => String.eqb s' s
  | _ => false
  end.

(** *** Writing values as text *)

(** The decimal digits of an integer, with a minus sign when negative.
    Whether the interpreter writes them is decided by [write_int]. *)
Definition repr_int (n : Z) : string := NilZero.string_of_int (Z.to_int n).

Definition hex_digit (n : nat) : ascii :=
  match n with
  | 0 => "0" | 1 => "1" | 2 => "2" | 3 => "3" | 4 => "4" | 5 => "5"
  | 6 => "6" | 7 => "7" | 8 => "8" | 9 => "9" | 10 => "a" | 11 => "b"
  | 12 => "c" | 13 => "d" | 14 => "e" | _ => "f"
  end%char.

Definition backslash : ascii := ascii_of_nat 92.
Definition single_quote : ascii := ascii_of_nat 39.
Definition double_quote : ascii := ascii_of_nat 34.

Definition escaped (c : ascii) : string :=
  String backslash (String c EmptyString).

Definition hex_escape (n : nat) : string :=
  String backslash
    (String "x" (String (hex_digit (n / 16)) (String (hex_digit (n mod 16)) EmptyString))).

(** One character of [repr(s)], for characters below 256: the quote and
    the backslash are escaped, tab, newline and carriage return have
    their letters, the unprintable ones are written in hexadecimal. *)
Definition repr_char (quote c : ascii) : string :=
  let n := nat_of_ascii c in
  if Ascii.eqb c quote || Ascii.eqb c backslash then escaped c
  else if (n =? 9)%nat then escaped "t"
  else if (n =? 10)%nat then escaped "n"
  else if (n =? 13)%nat then escaped "r"
  else if (n <? 32)%nat || (n =? 127)%nat then hex_escape n
  else if (n <? 127)%nat then String c EmptyString
  else if (n <=? 160)%nat || (n =? 173)%nat then hex_escape n
  else String c EmptyString.

Fixpoint has_char (c : ascii) (s : string) : bool :=
  match s with
  | EmptyString => false
  | String c' rest => Ascii.eqb c' c || has_char c rest
  end.

Fixpoint repr_chars (quote : ascii) (s : string) : string :=
  match s with
  | EmptyString => EmptyString
  | String c rest => repr_char quote c ++ repr_chars quote rest
  end.

(** [repr(s)]: single quotes, unless the string holds a single quote and
    no double quote.  The [repr] of a string always returns. *)
Definition repr_str (s : string) : string :=
  let quote :=
    if has_char single_quote s && negb (has_char double_quote s)
    then double_quote else single_quote in
  String quote (repr_chars quote s ++ String quote EmptyString).

(** [repr(k)] of the key a [KeyError] carries.  The module subscripts
    with string literals only, so the key is a string. *)
Definition repr_key (k : key) : string :=
  match k with
  | KNone => "None"
  | KBool b => if b then "True" else "False"
  | KInt n => repr_int n
  | KStr s => repr_str s
  end.

(** Why the interpreter may refuse to write a value: an integer has
    more digits than the interpreter converts (a [ValueError], with the
    interpreter's message), or the value is nested deeper than the
    interpreter has room to recurse (a [RecursionError]). *)
Inductive format_error : Type :=
| DigitLimit (msg : string)
| RecursionLimit.

Inductive formatted : Type :=
| Text (text : string)
| Fails (why : format_error).

Definition format_exn (why : format_error) : exn :=
  match why with
  | DigitLimit msg => ValueError msg
  | RecursionLimit => RecursionError
  end.

(** What the module needs of the interpreter it runs on: what an
    f-string puts in place of [{v}], which is [format(v, '')], the
    [str] of the values here, or the refusal to write it.  Where the
    limits lie depends on the version and the settings of the
    interpreter, so the function is the interpreter's, taken to be the
    same wherever the module writes a value; all that is asked of it is
    that a string is written as itself.  A theorem that needs some
    other value to be written says so in a hypothesis. *)
Class Interpreter : Type := {
  format_value : value -> formatted;
  format_str : forall s : string, format_value (VStr s) = Text s
}.

(** An interpreter with explicit limits: it converts integers of at
    most [max_digits] digits and has room for [budget] levels of
    nesting. *)
Definition digit_count (n : Z) : nat := String.length (repr_int (Z.abs n)).

Definition digit_limit_message (max_digits : nat) : string :=
  "Exceeds the limit (" ++ repr_int (Z.of_nat max_digits)
  ++ " digits) for integer string conversion; "
  ++ "use sys.set_int_max_str_digits() to increase the limit".

Definition write_int (max_digits : nat) (n : Z) : formatted :=
  if (digit_count n <=? max_digits)%nat then Text (repr_int n)
  else Fails (DigitLimit (digit_limit_message max_digits)).

Definition write_key (max_digits : nat) (k : key) : formatted :=
  match k with
  | KNone => Text "None"
  | KBool b => Text (if b then "True" else "False")
  | KInt n => write_int max_digits n
  | KStr s => Text (repr_str s)
  end.

(** [repr(v)] within the limits: the elements of a list and the entries
    of a dictionary are written in order, and the first refusal is the
    refusal of the whole. *)
Fixpoint write_repr (max_digits budget : nat) (v : value) {struct v} : formatted :=
  match v with
  | VNone => Text "None"
  | VBool b => Text (if b then "True" else "False")
  | VInt n => write_int max_digits n
  | VStr s => Text (repr_str s)
  | VList items =>
      match budget with
      | 0 => Fails RecursionLimit
      | S room =>
          let fix elements (l : list value) : formatted :=
            match l with
            | [] => Text ""
            | x :: rest =>
                match write_repr max_digits room x with
                | Fails why => Fails why
                | Text t =>
                    match rest with
                    | [] => Text t
                    | _ :: _ =>
                        match elements rest with
                        | Fails why => Fails why
                        | Text ts => Text (t ++ ", " ++ ts)
                        end
                    end
                end
            end in
          match elements items with
          | Fails why => Fails why
          | Text ts => Text ("[" ++ ts ++ "]")
          end
      end
  | VDict entries =>
      match budget with
      | 0 => Fails RecursionLimit
      | S room =>
          let fix pairs (l : list (key * value)) : formatted :=
            match l with
            | [] => Text ""
            | (k, x) :: rest =>
                match write_key max_digits k with
                | Fails why => Fails why
                | Text tk =>
                    match write_repr max_digits room x with
                    | Fails why => Fails why
                    | Text t =>
                        match rest with
                        | [] => Text (tk ++ ": " ++ t)
                        | _ :: _ =>
                            match pairs rest with
                            | Fails why => Fails why
                            | Text ts => Text (tk ++ ": " ++ t ++ ", " ++ ts)
                            end
                        end
                    end
                end
            end in
          match pairs entries with
          | Fails why => Fails why
          | Text ts => Text ("{" ++ ts ++ "}")
          end
      end
  end.

(** [str(v)] within the limits: a string is itself, anything else is
    its [repr]. *)
Definition write (max_digits budget : nat) (v : value) : formatted :=
  match v with
  | VStr s => Text s
  | _ => write_repr max_digits budget v
  end.

Definition interpreter_with (max_digits budget : nat) : Interpreter :=
  {| format_value := write max_digits budget;
     format_str := fun _ => eq_refl |}.

(** The interpreter the runs at the end of the file are taken on: the
    default limit of 4300 digits and room for 1000 levels. *)
Definition default_interpreter : Interpreter := interpreter_with 4300 1000.

(** A list nested [depth] levels below its top. *)
Fixpoint nested (depth : nat) : value :=
  match depth with
  | 0 => VList []
  | S d => VList [nested d]
  end.

(** The pieces of an f-string: literal text and [{v}] fields. *)
Inductive piece : Type :=
| Lit (s : string)
| Val (v : value).

(** [str(e)] for a [KeyError] raised by a subscript: the [repr] of the
    missing key. *)
Definition KeyError_str (k : key) : string := repr_key k.

(** [str(e)] for a [ValueError] raised with one message: the message. *)
Definition ValueError_str (msg : string) : string := msg.

(** [sub in s] on strings *)
Fixpoint contains (s sub : string) : bool :=
  prefix sub s
  || match s with
     | EmptyString => false
     | String _ rest => contains rest sub
     end.

End Py.

Import Py.

(** ** The module [baggage_claim]

    The module is modelled on an arbitrary interpreter.  A call to
    [logger.info] evaluates its message and appends it to the logging
    sink: the sink is left out, the evaluation of the message, which
    may raise, is kept.  The [logger.error] calls of the entry point
    write the text of an exception, a string, and cannot raise. *)

Section Program.

Context {interp : Interpreter}.

(** [{v}] in an f-string *)
Definition format (v : value) : result string :=
  match format_value v with
  | Text t => Ok t
  | Fails why => Raise (format_exn why)
  end.

(** An f-string: its fields are written from left to right, and the
    first one that cannot be written raises. *)
Fixpoint fstring (pieces : list piece) : result string :=
  match pieces with
  | [] => Ok ""
  | Lit s :: rest =>
      text <- fstring rest ;;
      Ok (s ++ text)
  | Val v :: rest =>
      t <- format v ;;
      text <- fstring rest ;;
      Ok (t ++ text)
  end.

(** [logger.info(message)] *)
Definition logger_info (message : result string) : result unit :=
  _ <- message ;;
  Ok tt.

(** Enumeration of supported function names *)
Inductive SupportedFunctions : Type :=
| FIND_BAGGAGE
| CHECK_FLIGHT_STATUS
| BOOK_FLIGHT
| CANCEL_RESERVATION.

(** [member.value] *)
Definition SupportedFunctions_value (f : SupportedFunctions) : string :=
  match f with
  | FIND_BAGGAGE => "find_baggage"
  | CHECK_FLIGHT_STATUS => "check_flight_status"
  | BOOK_FLIGHT => "book_flight"
  | CANCEL_RESERVATION => "cancel_reservation"
  end.

(** Iterating over the enumeration yields its members in the order of
    their declaration. *)
Definition SupportedFunctions_members : list SupportedFunctions :=
  [FIND_BAGGAGE; CHECK_FLIGHT_STATUS; BOOK_FLIGHT; CANCEL_RESERVATION].

(** The body of the loop of [extract_parameters].  In
    [result[item['name']] = item['value']] the right-hand side is
    evaluated first, then the subscript, then the store. *)
Definition extract_item (res : dict) (item : value) : result dict :=
  match item with
  | VDict d =>
      if dict_contains d (KStr "name") && dict_contains d (KStr "value") then
        v <- dict_getitem d (KStr "value") ;;
        n <- dict_getitem d (KStr "name") ;;
        dict_setitem res n v
      else Ok res
  | _ => Ok res
  end.

Fixpoint extract_loop (items : list value) (res : dict) : result dict :=
  match items with
  | [] => Ok res
  | item :: rest =>
      res' <- extract_item res item ;;
      extract_loop rest res'
  end.

(** Extract parameters from Bedrock agent event format *)
Definition extract_parameters (parameters : value) : result dict :=
  match parameters with
  | VList items => extract_loop items []
  | _ => Ok []
  end.

(** Validate that all required parameters are present *)
Definition validate_required_params (params : dict) (required : list string)
  : result unit :=
  let missing :=
    filter (fun param => negb (truthy (dict_get params (KStr param) VNone)))
           required in
  match missing with
  | _ :: _ =>
      Raise (ValueError ("Missing required parameters: " ++ String.concat ", " missing))
  | [] => Ok tt
  end.

(** Create a standardized response for Bedrock agent.  The entry point
    passes whatever the event holds as [action_group] and [function];
    [body] is always a string there. *)
Definition create_response (action_group function : value) (body : string) : value :=
  VDict
    [ (KStr "response",
       VDict
         [ (KStr "actionGroup", action_group);
           (KStr "function", function);
           (KStr "functionResponse",
            VDict
              [ (KStr "responseBody",
                 VDict [ (KStr "TEXT", VDict [ (KStr "body", VStr body) ]) ]) ]) ]);
      (KStr "messageVersion", VInt 1) ].

(** Find baggage information for a flight and phone number *)
Definition find_baggage (flight_number phone_number : value) : result string :=
  logger_info
    (fstring [ Lit "Searching for baggage on flight "; Val flight_number;
               Lit " for phone "; Val phone_number ]) ;;;
  fstring [ Lit "Found baggage information for flight "; Val flight_number; Lit ". ";
            Lit "Your baggage is currently at baggage claim area B. ";
            Lit "Contact number on file: "; Val phone_number ].

(** Check the status of a flight *)
Definition check_flight_status (flight_number : value) : result string :=
  logger_info (fstring [ Lit "Checking status for flight "; Val flight_number ]) ;;;
  fstring [ Lit "Flight "; Val flight_number; Lit " is currently on time. ";
            Lit "Departure: 3:30 PM, Arrival: 6:45 PM, Gate: A12" ].

(** Book a flight reservation *)
Definition book_flight
  (departure_city arrival_city departure_date passenger_name phone_number : value)
  : result string :=
  logger_info
    (fstring [ Lit "Booking flight from "; Val departure_city; Lit " to ";
               Val arrival_city; Lit " for "; Val passenger_name ]) ;;;
  let confirmation_code := VStr "ABC123" in
  fstring [ Lit "Flight booked successfully! ";
            Lit "Confirmation code: "; Val confirmation_code; Lit ". ";
            Lit "Route: "; Val departure_city; Lit " to "; Val arrival_city;
            Lit " on "; Val departure_date; Lit ". ";
            Lit "Passenger: "; Val passenger_name; Lit ", Contact: ";
            Val phone_number ].

(** Cancel a flight reservation *)
Definition cancel_reservation (confirmation_code phone_number : value)
  : result string :=
  logger_info
    (fstring [ Lit "Canceling reservation "; Val confirmation_code;
               Lit " for phone "; Val phone_number ]) ;;;
  fstring [ Lit "Reservation "; Val confirmation_code;
            Lit " has been successfully canceled. ";
            Lit "Refund will be processed to the original payment method within 3-5 business days." ].

(** Route function call to appropriate handler *)
Definition route_function_call (function_name : value) (params : dict)
  : result string :=
  if eq_str function_name (SupportedFunctions_value FIND_BAGGAGE) then
    validate_required_params params ["phoneNumber"; "flightNumber"] ;;;
    flight_number <- dict_getitem params (KStr "flightNumber") ;;
    phone_number <- dict_getitem params (KStr "phoneNumber") ;;
    find_baggage flight_number phone_number
  else if eq_str function_name (SupportedFunctions_value CHECK_FLIGHT_STATUS) then
    validate_required_params params ["flightNumber"] ;;;
    flight_number <- dict_getitem params (KStr "flightNumber") ;;
    check_flight_status flight_number
  else if eq_str function_name (SupportedFunctions_value BOOK_FLIGHT) then
    validate_required_params params
      ["departureCity"; "arrivalCity"; "departureDate"; "passengerName"; "phoneNumber"] ;;;
    departure_city <- dict_getitem params (KStr "departureCity") ;;
    arrival_city <- dict_getitem params (KStr "arrivalCity") ;;
    departure_date <- dict_getitem params (KStr "departureDate") ;;
    passenger_name <- dict_getitem params (KStr "passengerName") ;;
    phone_number <- dict_getitem params (KStr "phoneNumber") ;;
    book_flight departure_city arrival_city departure_date passenger_name phone_number
  else if eq_str function_name (SupportedFunctions_value CANCEL_RESERVATION) then
    validate_required_params params ["confirmationCode"; "phoneNumber"] ;;;
    confirmation_code <- dict_getitem params (KStr "confirmationCode") ;;
    phone_number <- dict_getitem params (KStr "phoneNumber") ;;
    cancel_reservation confirmation_code phone_number
  else
    let supported := map SupportedFunctions_value SupportedFunctions_members in
    message <- fstring [ Lit "Unsupported function: "; Val function_name;
                         Lit ". Supported: ";
                         Val (VStr (String.concat ", " supported)) ] ;;
    Raise (ValueError message).

(** [list(params.keys())] *)
Definition keys (params : dict) : value :=
  VList (map (fun entry => of_key (fst entry)) params).

(** The [try] block of [lambda_handler].  Its last log message is a
    literal: there is nothing to write in it. *)
Definition lambda_try (event : value) : result value :=
  action_group <- getitem event "actionGroup" ;;
  function_name <- getitem event "function" ;;
  parameters <- get event "parameters" (VList []) ;;
  agent <- getitem event "agent" ;;
  logger_info
    (fstring [ Lit "Processing function '"; Val function_name;
               Lit "' from action group '"; Val action_group; Lit "'" ]) ;;;
  params <- extract_parameters parameters ;;
  logger_info (fstring [ Lit "Extracted parameters: "; Val (keys params) ]) ;;;
  result_body <- route_function_call function_name params ;;
  Ok (create_response action_group function_name result_body).

(** AWS Lambda handler for Bedrock agent function calls.  The [except]
    clauses are tried in the order [KeyError], [ValueError],
    [Exception]; in each, the two permissive lookups on the event are
    evaluated before [create_response] is called. *)
Definition lambda_handler (event context : value) : result value :=
  match lambda_try event with
  | Ok response => Ok response
  | Raise (KeyError k) =>
      let error_msg :=
        "Missing required field: " ++ KeyError_str k
        ++ ". Please contact IT support." in
      action_group <- get event "actionGroup" (VStr "unknown") ;;
      function_name <- get event "function" (VStr "unknown") ;;
      Ok (create_response action_group function_name error_msg)
  | Raise (ValueError msg) =>
      let error_msg :=
        "Validation error: " ++ ValueError_str msg
        ++ ". Please check your input and try again." in
      action_group <- get event "actionGroup" (VStr "unknown") ;;
      function_name <- get event "function" (VStr "unknown") ;;
      Ok (create_response action_group function_name error_msg)
  | Raise _ =>
      let error_msg := "An unexpected error occurred. Please contact IT support." in
      action_group <- get event "actionGroup" (VStr "unknown") ;;
      function_name <- get event "function" (VStr "unknown") ;;
      Ok (create_response action_group function_name error_msg)
  end.


(** ** Vocabulary of the contract *)

(** A required key is offending in a parameter map when the map has no
    entry for it or the entry's value is falsy. *)
Definition absent_or_falsy (params : dict) (k : string) : Prop :=
  dict_lookup params (KStr k) = None
  \/ exists v, dict_lookup params (KStr k) = Some v /\ truthy v = false.

Definition offending (params : dict) (k : string) : bool :=
  match dict_lookup params (KStr k) with
  | None => true
  | Some v => negb (truthy v)
  end.

(** The offending keys of a required-key list, in the order of the list. *)
Definition offending_keys (params : dict) (required : list string) : list string :=
  filter (offending params) required.

(** The required-key list of each supported function, as the branches
    of [route_function_call] pass them to the validator. *)
Definition required_keys (f : SupportedFunctions) : list string :=
  match f with
  | FIND_BAGGAGE => ["phoneNumber"; "flightNumber"]
  | CHECK_FLIGHT_STATUS => ["flightNumber"]
  | BOOK_FLIGHT =>
      ["departureCity"; "arrivalCity"; "departureDate"; "passengerName"; "phoneNumber"]
  | CANCEL_RESERVATION => ["confirmationCode"; "phoneNumber"]
  end.

(** The keys each branch then reads from the parameter map by direct
    subscript, in the order they are read. *)
Definition subscripted_keys (f : SupportedFunctions) : list string :=
  match f with
  | FIND_BAGGAGE => ["flightNumber"; "phoneNumber"]
  | CHECK_FLIGHT_STATUS => ["flightNumber"]
  | BOOK_FLIGHT =>
      ["departureCity"; "arrivalCity"; "departureDate"; "passengerName"; "phoneNumber"]
  | CANCEL_RESERVATION => ["confirmationCode"; "phoneNumber"]
  end.

(** The handler of each supported function, applied to the values
    read at its subscripted keys: what the call returns or raises. *)
Definition call_handler (f : SupportedFunctions) (args : list value)
  : option (result string) :=
  match f, args with
  | FIND_BAGGAGE, [flight_number; phone_number] =>
      Some (find_baggage flight_number phone_number)
  | CHECK_FLIGHT_STATUS, [flight_number] =>
      Some (check_flight_status flight_number)
  | BOOK_FLIGHT,
    [departure_city; arrival_city; departure_date; passenger_name; phone_number] =>
      Some (book_flight departure_city arrival_city departure_date
                        passenger_name phone_number)
  | CANCEL_RESERVATION, [confirmation_code; phone_number] =>
      Some (cancel_reservation confirmation_code phone_number)
  | _, _ => None
  end.

(** The interpreter writes the value. *)
Definition writable (v : value) : Prop :=
  exists t, format_value v = Text t.

(** Following a path of string keys into nested dictionaries. *)
Fixpoint lookup_path (v : value) (path : list string) : option value :=
  match path with
  | [] => Some v
  | k :: rest =>
      match v with
      | VDict d =>
          match dict_lookup d (KStr k) with
          | Some v' => lookup_path v' rest
          | None => None
          end
      | _ => None
      end
  end.

Definition envelope_action_group (envelope : value) : option value :=
  lookup_path envelope ["response"; "actionGroup"].

Definition envelope_function (envelope : value) : option value :=
  lookup_path envelope ["response"; "function"].

Definition envelope_body (envelope : value) : option value :=
  lookup_path envelope ["response"; "functionResponse"; "responseBody"; "TEXT"; "body"].

(** [v] is a dictionary whose keys are exactly [names], in that order. *)
Fixpoint keys_are (d : dict) (names : list string) : bool :=
  match d, names with
  | [], [] => true
  | (KStr k, _) :: d', n :: names' => String.eqb k n && keys_are d' names'
  | _, _ => false
  end.

Definition at_path (v : value) (path : list string) (p : value -> bool) : bool :=
  match lookup_path v path with
  | Some x => p x
  | None => false
  end.

Definition has_keys (names : list string) (v : value) : bool :=
  match v with
  | VDict d => keys_are d names
  | _ => false
  end.

Definition is_str (v : value) : bool :=
  match v with VStr _ => true | _ => false end.

Definition is_one (v : value) : bool :=
  match v with VInt 1 => true | _ => false end.

(** The fixed shape of the Response Envelope:
    [{response: {actionGroup, function, functionResponse:
    {responseBody: {TEXT: {body: <string>}}}}, messageVersion: 1}].
    [actionGroup] and [function] are passed through unvalidated, so
    nothing is asked of them. *)
Definition well_formed_envelope (v : value) : bool :=
  has_keys ["response"; "messageVersion"] v
  && at_path v ["messageVersion"] is_one
  && at_path v ["response"] (has_keys ["actionGroup"; "function"; "functionResponse"])
  && at_path v ["response"; "functionResponse"] (has_keys ["responseBody"])
  && at_path v ["response"; "functionResponse"; "responseBody"] (has_keys ["TEXT"])
  && at_path v ["response"; "functionResponse"; "responseBody"; "TEXT"] (has_keys ["body"])
  && at_path v ["response"; "functionResponse"; "responseBody"; "TEXT"; "body"] is_str.

(** Equal keys are the same key once [True] and [False] are read as the
    integers they are. *)
Definition key_norm (k : key) : key :=
  match k with
  | KBool b => KInt (Z_of_bool b)
  | _ => k
  end.

(** The shape check of the contract: an item is well formed when it is
    a mapping with both a [name] and a [value] key; it then yields that
    name and that value. *)
Definition well_formed_item (item : value) : option (value * value) :=
  match item with
  | VDict d =>
      match dict_lookup d (KStr "name"), dict_lookup d (KStr "value") with
      | Some n, Some v => Some (n, v)
      | _, _ => None
      end
  | _ => None
  end.

(** The names and values of the well-formed items of a sequence, in
    sequence order. *)
Fixpoint named_values (items : list value) : list (value * value) :=
  match items with
  | [] => []
  | item :: rest =>
      match well_formed_item item with
      | Some nv => nv :: named_values rest
      | None => named_values rest
      end
  end.

(** [result[name] = value] for each pair in turn. *)
Fixpoint assign_all (pairs : list (value * value)) (res : dict) : result dict :=
  match pairs with
  | [] => Ok res
  | (n, v) :: rest =>
      res' <- dict_setitem res n v ;;
      assign_all rest res'
  end.

(** The value of the last binding of a key. *)
Fixpoint last_value (bindings : list (key * value)) (k : key) : option value :=
  match bindings with
  | [] => None
  | (k', v) :: rest =>
      match last_value rest k with
      | Some v' => Some v'
      | None => if key_eqb k' k then Some v else None
      end
  end.

(** A binding as the pair of values an item carries it in. *)
Definition binding_pair (b : key * value) : value * value :=
  (of_key (fst b), snd b).

(** The message of the last branch of the router, for a function name
    written as [name]. *)
Definition unsupported_message (name : string) : string :=
  "Unsupported function: " ++ name
  ++ ". Supported: find_baggage, check_flight_status, book_flight, cancel_reservation".

(** The body an [except] clause puts in the envelope, by the kind of
    error: a missing field, a validation error, anything else. *)
Definition error_body (e : exn) : string :=
  match e with
  | KeyError k =>
      "Missing required field: " ++ repr_key k ++ ". Please contact IT support."
  | ValueError detail =>
      "Validation error: " ++ detail ++ ". Please check your input and try again."
  | TypeError | AttributeError | RecursionError =>
      "An unexpected error occurred. Please contact IT support."
  end.

(** The required top-level fields, in the order the entry point reads
    them, and the first of them an event lacks. *)
Definition required_fields : list string := ["actionGroup"; "function"; "agent"].

Definition first_missing_field (entries : dict) : option string :=
  find (fun field => negb (dict_contains entries (KStr field))) required_fields.

(** [event.get(name, 'unknown')] on a mapping event. *)
Definition field_or_unknown (entries : dict) (name : string) : value :=
  dict_get entries (KStr name) (VStr "unknown").


(** A well-formed item whose name cannot be hashed. *)
Definition unhashable_name (item : value) : bool :=
  match well_formed_item item with
  | Some (n, _) =>
      match to_key n with
      | Some _ => false
      | None => true
      end
  | None => false
  end.

(** A required key with a truthy entry in a parameter map. *)
Definition supplied (params : dict) (k : string) : Prop :=
  exists v, dict_lookup params (KStr k) = Some v /\ truthy v = true.

(** The function name is one of the four supported ones. *)
Definition supported (function_name : value) : Prop :=
  exists f, function_name = VStr (SupportedFunctions_value f).

(** The [try] block once the four fields are read. *)
Definition after_fields (action_group function_name parameters : value)
  : result string :=
  logger_info
    (fstring [ Lit "Processing function '"; Val function_name;
               Lit "' from action group '"; Val action_group; Lit "'" ]) ;;;
  params <- extract_parameters parameters ;;
  logger_info (fstring [ Lit "Extracted parameters: "; Val (keys params) ]) ;;;
  route_function_call function_name params.

(** The body of the envelope for an event that has its three required
    fields: the router's text, or the error body of whatever the block
    raised. *)
Definition response_text (action_group function_name parameters : value) : string :=
  match after_fields action_group function_name parameters with
  | Ok text => text
  | Raise e => error_body e
  end.

Definition or_unknown (field : option value) : value :=
  match field with
  | Some v => v
  | None => VStr "unknown"
  end.

(** The envelope for a mapping event, from what its four fields hold:
    the fields are read in the order [actionGroup], [function],
    [agent], and the first one absent is reported. *)
Definition entry_answer
  (action_group function_name agent : option value) (parameters : value) : value :=
  create_response (or_unknown action_group) (or_unknown function_name)
    match action_group, function_name, agent with
    | None, _, _ => error_body (KeyError (KStr "actionGroup"))
    | Some _, None, _ => error_body (KeyError (KStr "function"))
    | Some _, Some _, None => error_body (KeyError (KStr "agent"))
    | Some ag, Some fn, Some _ => response_text ag fn parameters
    end.

(** An item passes the shape check of the extractor. *)
Definition passes_shape_check (item : value) : bool :=
  match well_formed_item item with
  | Some _ => true
  | None => false
  end.


(** An error raised because the interpreter refused to write a value. *)
Definition formatting_error (e : exn) : Prop :=
  exists why, e = format_exn why.

(** A required key with a truthy entry that the interpreter writes. *)
Definition supplied_and_written (params : dict) (k : string) : Prop :=
  exists v, dict_lookup params (KStr k) = Some v /\ truthy v = true /\ writable v.

(** ** Facts about strings *)

Lemma prefix_app (sub post : string) : prefix sub (sub ++ post) = true.
Proof.
  induction sub as [|ch sub IH]; simpl.
  - now destruct post.
  - destruct (ascii_dec ch ch) as [_|ne]; [exact IH | now elim ne].
Qed.

Lemma prefix_refl (s : string) : prefix s s = true.
Proof.
  induction s as [|ch s IH]; simpl; [reflexivity|].
  destruct (ascii_dec ch ch) as [_|ne]; [exact IH | now elim ne].
Qed.

Lemma contains_cons (c : ascii) (s sub : string) :
  contains (String c s) sub = prefix sub (String c s) || contains s sub.
Proof. reflexivity. Qed.

Lemma contains_prefix (s sub : string) : prefix sub s = true -> contains s sub = true.
Proof.
  intros H. destruct s; simpl in *; rewrite H; reflexivity.
Qed.

Lemma contains_refl (s : string) : contains s s = true.
Proof. apply contains_prefix, prefix_refl. Qed.

Lemma contains_head (sub post : string) : contains (sub ++ post) sub = true.
Proof. apply contains_prefix, prefix_app. Qed.

Lemma contains_skip (pre s sub : string) :
  contains s sub = true -> contains (pre ++ s) sub = true.
Proof.
  intros H. induction pre as [|ch pre IH]; [exact H|].
  change (String ch pre ++ s) with (String ch (pre ++ s)).
  rewrite contains_cons, IH. apply orb_true_r.
Qed.

(** Finds a piece among the pieces a text is appended from. *)
Ltac find_piece :=
  repeat first [ apply contains_refl | apply contains_head | apply contains_skip ].

(** ** The validator *)

Lemma offending_get (params : dict) (k : string) :
  negb (truthy (dict_get params (KStr k) VNone)) = offending params k.
Proof.
  unfold dict_get, offending. now destruct (dict_lookup params (KStr k)).
Qed.

Lemma offending_iff (params : dict) (k : string) :
  offending params k = true <-> absent_or_falsy params k.
Proof.
  unfold offending, absent_or_falsy.
  destruct (dict_lookup params (KStr k)) as [v|]; split.
  - intros H. right. exists v. split; [reflexivity|]. now apply negb_true_iff.
  - intros [H|(v' & H & F)]; [discriminate|].
    injection H as <-. now apply negb_true_iff.
  - now left.
  - reflexivity.
Qed.

(** The validator, read through [offending_keys]. *)
Lemma validate_required_params_unfold (params : dict) (required : list string) :
  validate_required_params params required =
  match offending_keys params required with
  | [] => Ok tt
  | _ :: _ =>
      Raise (ValueError ("Missing required parameters: "
                         ++ String.concat ", " (offending_keys params required)))
  end.
Proof.
  unfold validate_required_params, offending_keys.
  rewrite (filter_ext _ (offending params) (offending_get params)).
  reflexivity.
Qed.

Lemma validate_raises_value_error (params : dict) (required : list string) (e : exn) :
  validate_required_params params required = Raise e ->
  e = ValueError ("Missing required parameters: "
                  ++ String.concat ", " (offending_keys params required)).
Proof.
  rewrite validate_required_params_unfold.
  destruct (offending_keys params required); [discriminate|].
  now intros [= <-].
Qed.

(** After a validation that returned, every required key has a truthy
    entry. *)
Lemma validate_ok_present (params : dict) (required : list string) :
  validate_required_params params required = Ok tt ->
  forall k, In k required ->
  exists v, dict_lookup params (KStr k) = Some v /\ truthy v = true.
Proof.
  rewrite validate_required_params_unfold. unfold offending_keys.
  destruct (filter (offending params) required) as [|bad rest] eqn:E; [|discriminate].
  intros _ k Hin.
  assert (Hk : offending params k = false).
  { destruct (offending params k) eqn:O; [|reflexivity].
    assert (Hf : In k (filter (offending params) required))
      by (apply filter_In; split; assumption).
    rewrite E in Hf. destruct Hf. }
  unfold offending in Hk.
  destruct (dict_lookup params (KStr k)) as [v|]; [|discriminate].
  exists v. split; [reflexivity|]. now apply negb_false_iff.
Qed.

(** C3.  The validator raises if and only if some required key is absent
    from the mapping or maps to a falsy value; the error it raises is a
    [ValueError] whose message is the fixed prefix followed by the
    offending keys, comma-joined, in the order of the required list (and
    a key is listed exactly when it is required and offending);
    otherwise it returns normally, with no value. *)
Theorem validate_required_params_contract (params : dict) (required : list string) :
  ((exists e, validate_required_params params required = Raise e)
   <-> (exists k, In k required /\ absent_or_falsy params k))
  /\ (forall e, validate_required_params params required = Raise e ->
        e = ValueError ("Missing required parameters: "
                        ++ String.concat ", " (offending_keys params required)))
  /\ (forall k, In k (offending_keys params required)
                <-> In k required /\ absent_or_falsy params k)
  /\ ((forall k, In k required -> ~ absent_or_falsy params k) ->
      validate_required_params params required = Ok tt).
Proof.
  assert (Hmem : forall k, In k (offending_keys params required)
                           <-> In k required /\ absent_or_falsy params k).
  { intros k. unfold offending_keys. rewrite filter_In, offending_iff. tauto. }
  split; [split|split; [|split]].
  - intros [e He]. rewrite validate_required_params_unfold in He.
    destruct (offending_keys params required) as [|k rest] eqn:E; [discriminate|].
    exists k. apply Hmem. now left.
  - intros (k & Hk). apply Hmem in Hk.
    rewrite validate_required_params_unfold.
    destruct (offending_keys params required) as [|k' rest]; [destruct Hk|].
    eexists. reflexivity.
  - apply validate_raises_value_error.
  - exact Hmem.
  - intros Hnone. rewrite validate_required_params_unfold.
    destruct (offending_keys params required) as [|k rest] eqn:E; [reflexivity|].
    exfalso. apply (Hnone k); apply (Hmem k); now left.
Qed.

(** A run of C3: three of four required keys are offending. *)
Lemma validate_required_params_contract_witness :
  let params := [(KStr "a", VStr "x"); (KStr "b", VStr ""); (KStr "d", VInt 0)] in
  let required := ["d"; "a"; "c"; "b"] in
  (exists k, In k required /\ absent_or_falsy params k)
  /\ validate_required_params params required
     = Raise (ValueError "Missing required parameters: d, c, b").
Proof.
  intros params required.
  assert (Hk : exists k, In k required /\ absent_or_falsy params k).
  { exists "c". split; [simpl; tauto | left; reflexivity]. }
  split; [exact Hk|].
  destruct (validate_required_params_contract params required) as (Hiff & Hmsg & _).
  destruct (proj2 Hiff Hk) as [e He].
  rewrite He. f_equal. exact (Hmsg e He).
Defined.

(** ** Writing into f-strings *)

Lemma format_text (v : value) (t : string) :
  format_value v = Text t -> format v = Ok t.
Proof. unfold format. now intros ->. Qed.

Lemma format_VStr (s : string) : format (VStr s) = Ok s.
Proof. apply format_text, format_str. Qed.

Lemma format_outcome (v : value) :
  (exists t, format_value v = Text t /\ format v = Ok t)
  \/ (exists why, format v = Raise (format_exn why)).
Proof.
  unfold format. destruct (format_value v) as [t|why]; eauto.
Qed.

Lemma fstring_outcome (pieces : list piece) :
  (exists text, fstring pieces = Ok text)
  \/ (exists why, fstring pieces = Raise (format_exn why)).
Proof.
  induction pieces as [|[s|v] rest IH]; simpl.
  - eauto.
  - destruct IH as [[text ->]|[why ->]]; simpl; eauto.
  - destruct (format_outcome v) as [(t & _ & ->)|[why ->]]; simpl; [|eauto].
    destruct IH as [[text ->]|[why ->]]; simpl; eauto.
Qed.

(** A handler returns a text, or raises what the interpreter raised
    when it refused to write a value. *)
Lemma call_handler_outcome
  (f : SupportedFunctions) (args : list value) (outcome : result string) :
  call_handler f args = Some outcome ->
  (exists text, outcome = Ok text) \/ (exists e, outcome = Raise e /\ formatting_error e).
Proof.
  unfold formatting_error. intros H.
  destruct f; simpl in H;
    repeat match type of H with
           | context [match ?l with [] => _ | _ :: _ => _ end] =>
               destruct l; simpl in H
           end;
    try discriminate H; injection H as <-;
    unfold find_baggage, check_flight_status, book_flight, cancel_reservation,
      logger_info;
    match goal with
    | |- context [bind (bind (fstring ?a) _) (fun _ => fstring ?b)] =>
        destruct (fstring_outcome a) as [[t ->]|[why ->]]; cbn [bind]; [|eauto];
        destruct (fstring_outcome b) as [[t' ->]|[why ->]]; eauto
    end.
Qed.

(** ** The router *)

Ltac read_validated Hv key :=
  let v := fresh "v" in
  let Hl := fresh "Hl" in
  let Ht := fresh "Ht" in
  destruct (validate_ok_present _ _ Hv key) as (v & Hl & Ht);
  [simpl; tauto | rewrite Hl; cbn [bind]].

Ltac handler_called :=
  eexists; eexists;
  split; [repeat constructor; eassumption | split; reflexivity].

(** A branch whose validation returned reads only keys that are there,
    and ends as its handler does on their values. *)
Lemma route_after_validation (f : SupportedFunctions) (params : dict) :
  validate_required_params params (required_keys f) = Ok tt ->
  exists args outcome,
    Forall2 (fun k v => dict_lookup params (KStr k) = Some v /\ truthy v = true)
            (subscripted_keys f) args
    /\ call_handler f args = Some outcome
    /\ route_function_call (VStr (SupportedFunctions_value f)) params = outcome.
Proof.
  intros Hv.
  destruct f; cbn [required_keys subscripted_keys] in *;
    unfold route_function_call, dict_getitem;
    cbn [SupportedFunctions_value eq_str String.eqb Ascii.eqb Bool.eqb];
    rewrite Hv; cbn [bind].
  - read_validated Hv "flightNumber". read_validated Hv "phoneNumber".
    handler_called.
  - read_validated Hv "flightNumber". handler_called.
  - read_validated Hv "departureCity". read_validated Hv "arrivalCity".
    read_validated Hv "departureDate". read_validated Hv "passengerName".
    read_validated Hv "phoneNumber". handler_called.
  - read_validated Hv "confirmationCode". read_validated Hv "phoneNumber".
    handler_called.
Qed.

Lemma eq_str_true (v : value) (s : string) : eq_str v s = true -> v = VStr s.
Proof.
  destruct v; simpl; try discriminate. intros H. f_equal. now apply String.eqb_eq.
Qed.

(** The chain of comparisons: a name is one of the four, or the last
    branch writes it into its message and raises. *)
Lemma route_function_call_cases (function_name : value) (params : dict) :
  (exists f, function_name = VStr (SupportedFunctions_value f))
  \/ route_function_call function_name params
     = (name <- format function_name ;;
        Raise (ValueError (unsupported_message name))).
Proof.
  unfold route_function_call.
  destruct (eq_str function_name (SupportedFunctions_value FIND_BAGGAGE)) eqn:E1;
    [left; exists FIND_BAGGAGE; now apply eq_str_true|].
  destruct (eq_str function_name (SupportedFunctions_value CHECK_FLIGHT_STATUS)) eqn:E2;
    [left; exists CHECK_FLIGHT_STATUS; now apply eq_str_true|].
  destruct (eq_str function_name (SupportedFunctions_value BOOK_FLIGHT)) eqn:E3;
    [left; exists BOOK_FLIGHT; now apply eq_str_true|].
  destruct (eq_str function_name (SupportedFunctions_value CANCEL_RESERVATION)) eqn:E4;
    [left; exists CANCEL_RESERVATION; now apply eq_str_true|].
  right. cbn [fstring]. rewrite format_VStr.
  destruct (format function_name); reflexivity.
Qed.

(** A validation failure leaves the router unchanged. *)
Lemma route_validation_fails (f : SupportedFunctions) (params : dict) (e : exn) :
  validate_required_params params (required_keys f) = Raise e ->
  route_function_call (VStr (SupportedFunctions_value f)) params = Raise e.
Proof.
  intros Hv.
  destruct f; cbn [required_keys] in Hv;
    unfold route_function_call;
    cbn [SupportedFunctions_value eq_str String.eqb Ascii.eqb Bool.eqb];
    rewrite Hv; reflexivity.
Qed.

(** The router returns a text, or raises a [ValueError], or raises
    because a value could not be written; nothing else. *)
Lemma route_function_call_outcome (function_name : value) (params : dict) :
  (exists body, route_function_call function_name params = Ok body)
  \/ (exists e, route_function_call function_name params = Raise e
                /\ ((exists msg, e = ValueError msg) \/ formatting_error e)).
Proof.
  destruct (route_function_call_cases function_name params) as [[f ->]|H].
  - destruct (validate_required_params params (required_keys f)) as [[]|e] eqn:Hv.
    + destruct (route_after_validation _ _ Hv) as (args & outcome & _ & Hc & ->).
      destruct (call_handler_outcome _ _ _ Hc) as [[text ->]|(e & -> & He)]; eauto.
    + right. rewrite (route_validation_fails _ _ _ Hv).
      rewrite (validate_raises_value_error _ _ _ Hv). eauto.
  - right. rewrite H.
    destruct (format_outcome function_name) as [(t & _ & ->)|[why ->]]; simpl.
    + eauto.
    + exists (format_exn why). split; [reflexivity|]. right. now exists why.
Qed.

Lemma formatting_error_not_key (e : exn) (k : key) :
  formatting_error e -> e <> KeyError k.
Proof. intros [[msg|] ->]; discriminate. Qed.

(** C9.  In every branch of the router, once the validator has returned
    normally on the branch's required-key list, every key the branch
    then reads by subscript is in the parameter map, and the branch
    ends as its handler does on the values found there; and whatever
    the function name and the parameter map, the router never fails
    with a missing-key error. *)
Theorem route_function_call_no_missing_key :
  (forall (f : SupportedFunctions) (params : dict),
      validate_required_params params (required_keys f) = Ok tt ->
      Forall (fun k => dict_contains params (KStr k) = true) (subscripted_keys f)
      /\ exists args outcome,
           Forall2 (fun k v => dict_getitem params (KStr k) = Ok v)
                   (subscripted_keys f) args
           /\ call_handler f args = Some outcome
           /\ route_function_call (VStr (SupportedFunctions_value f)) params = outcome
           /\ forall k, outcome <> Raise (KeyError k))
  /\ (forall (function_name : value) (params : dict) (k : key),
        route_function_call function_name params <> Raise (KeyError k)).
Proof.
  split.
  - intros f params Hv.
    destruct (route_after_validation _ _ Hv) as (args & outcome & Hargs & Hcall & Hroute).
    split.
    + clear Hcall Hroute.
      induction Hargs as [|k v ks vs [Hl _] _ IH]; constructor; [|exact IH].
      unfold dict_contains. now rewrite Hl.
    + exists args, outcome. split; [|split; [exact Hcall | split; [exact Hroute|]]].
      * clear Hcall Hroute.
        induction Hargs as [|k v ks vs [Hl _] _ IH]; constructor; [|exact IH].
        unfold dict_getitem. now rewrite Hl.
      * intros k.
        destruct (call_handler_outcome _ _ _ Hcall) as [[text ->]|(e & -> & He)];
          [discriminate|].
        intros [= ->]. now apply (formatting_error_not_key _ k He).
  - intros function_name params k H.
    destruct (route_function_call_outcome function_name params)
      as [[body Hb]|(e & He & [[msg ->]|Hf])]; try congruence.
    rewrite He in H. injection H as ->.
    now apply (formatting_error_not_key _ k Hf).
Qed.

Lemma offending_keys_cons (params : dict) (k : string) (rest : list string) :
  offending_keys params (k :: rest)
  = if offending params k then k :: offending_keys params rest
    else offending_keys params rest.
Proof. reflexivity. Qed.

(** C4, amended.  When the router is called with [find_baggage] and a
    parameter map in which both required keys are missing or falsy, the
    validation failure lists them in the order of the list the branch
    passes to the validator: [phoneNumber], then [flightNumber]. *)
Theorem route_find_baggage_both_missing (params : dict) :
  absent_or_falsy params "flightNumber" ->
  absent_or_falsy params "phoneNumber" ->
  route_function_call (VStr "find_baggage") params
  = Raise (ValueError "Missing required parameters: phoneNumber, flightNumber").
Proof.
  intros Hf Hp. apply offending_iff in Hf, Hp.
  apply (route_validation_fails FIND_BAGGAGE).
  rewrite validate_required_params_unfold. cbn [required_keys].
  rewrite !offending_keys_cons, Hf, Hp. reflexivity.
Qed.

(** C6.  For a function name that is a string and none of the four
    supported names, and any parameter map, the router raises an error
    whose message names the offending function and then lists the four
    supported names, comma-joined, in the order the enumeration declares
    them. *)
Theorem route_function_call_unsupported (function_name : string) (params : dict) :
  ~ In function_name (map SupportedFunctions_value SupportedFunctions_members) ->
  route_function_call (VStr function_name) params
  = Raise (ValueError
             ("Unsupported function: " ++ function_name
              ++ ". Supported: find_baggage, check_flight_status, book_flight, cancel_reservation")).
Proof.
  intros Hnot.
  destruct (route_function_call_cases (VStr function_name) params) as [[f Hf]|H].
  - exfalso. apply Hnot. injection Hf as ->.
    apply in_map. destruct f; simpl; tauto.
  - rewrite H, format_VStr. reflexivity.
Qed.

(** C8.  When the router is called with [book_flight] and a parameter
    map holding, for each of the five required keys, a truthy value
    that the interpreter writes, it returns a text that contains the
    fixed confirmation code [ABC123] and the five supplied values as
    written (a string is written as itself). *)
Theorem route_book_flight_text
  (params : dict)
  (departure_city arrival_city departure_date passenger_name phone_number : value)
  (city_from city_to date name phone : string) :
  dict_lookup params (KStr "departureCity") = Some departure_city ->
  dict_lookup params (KStr "arrivalCity") = Some arrival_city ->
  dict_lookup params (KStr "departureDate") = Some departure_date ->
  dict_lookup params (KStr "passengerName") = Some passenger_name ->
  dict_lookup params (KStr "phoneNumber") = Some phone_number ->
  truthy departure_city = true ->
  truthy arrival_city = true ->
  truthy departure_date = true ->
  truthy passenger_name = true ->
  truthy phone_number = true ->
  format_value departure_city = Text city_from ->
  format_value arrival_city = Text city_to ->
  format_value departure_date = Text date ->
  format_value passenger_name = Text name ->
  format_value phone_number = Text phone ->
  exists text,
    route_function_call (VStr "book_flight") params = Ok text
    /\ contains text "ABC123" = true
    /\ contains text city_from = true
    /\ contains text city_to = true
    /\ contains text date = true
    /\ contains text name = true
    /\ contains text phone = true.
Proof.
  intros L1 L2 L3 L4 L5 T1 T2 T3 T4 T5 W1 W2 W3 W4 W5.
  assert (Hv : validate_required_params params (required_keys BOOK_FLIGHT) = Ok tt).
  { rewrite validate_required_params_unfold. cbn [required_keys].
    rewrite !offending_keys_cons. unfold offending.
    rewrite L1, L2, L3, L4, L5, T1, T2, T3, T4, T5. reflexivity. }
  cbn [required_keys] in Hv.
  unfold route_function_call.
  cbn [SupportedFunctions_value eq_str String.eqb Ascii.eqb Bool.eqb].
  rewrite Hv. unfold dict_getitem. rewrite L1, L2, L3, L4, L5. cbn [bind].
  unfold book_flight, logger_info. cbn [fstring]. unfold format.
  rewrite W1, W2, W3, W4, W5, format_str. cbn [bind].
  eexists. split; [reflexivity|]. repeat split; find_piece.
Qed.

(** ** Dictionaries: lookup after a store *)

Lemma key_eqb_norm (a b : key) : key_eqb a b = true <-> key_norm a = key_norm b.
Proof.
  destruct a, b; simpl; split; intros H;
    try discriminate; try reflexivity;
    try (apply Z.eqb_eq in H; now rewrite H);
    try (apply String.eqb_eq in H; now rewrite H);
    try (injection H as H; apply Z.eqb_eq; exact H);
    try (injection H as H; apply String.eqb_eq; exact H).
Qed.

Lemma key_eqb_refl (a : key) : key_eqb a a = true.
Proof. now apply key_eqb_norm. Qed.

Lemma key_eqb_congr (a b c : key) :
  key_eqb a b = true -> key_eqb a c = key_eqb b c.
Proof.
  intros Hab. apply key_eqb_norm in Hab.
  destruct (key_eqb a c) eqn:Hac, (key_eqb b c) eqn:Hbc; try reflexivity.
  - apply key_eqb_norm in Hac.
    assert (H : key_eqb b c = true) by (apply key_eqb_norm; congruence).
    congruence.
  - apply key_eqb_norm in Hbc.
    assert (H : key_eqb a c = true) by (apply key_eqb_norm; congruence).
    congruence.
Qed.

Lemma dict_lookup_set (d : dict) (k k' : key) (v : value) :
  dict_lookup (dict_set d k v) k'
  = if key_eqb k k' then Some v else dict_lookup d k'.
Proof.
  induction d as [|[k0 v0] d IH]; simpl.
  - reflexivity.
  - destruct (key_eqb k0 k) eqn:E; simpl.
    + rewrite (key_eqb_congr _ _ k' E). now destruct (key_eqb k k').
    + rewrite IH. destruct (key_eqb k0 k') eqn:E'; [|reflexivity].
      destruct (key_eqb k k') eqn:E''; [|reflexivity].
      exfalso.
      apply key_eqb_norm in E', E''.
      assert (H : key_eqb k0 k = true) by (apply key_eqb_norm; congruence).
      congruence.
Qed.

(** ** The parameter extractor *)

Lemma to_key_of_key (k : key) : to_key (of_key k) = Some k.
Proof. now destruct k. Qed.

Lemma extract_item_spec (res : dict) (item : value) :
  extract_item res item
  = match well_formed_item item with
    | Some (n, v) => dict_setitem res n v
    | None => Ok res
    end.
Proof.
  destruct item; try reflexivity.
  unfold extract_item, well_formed_item, dict_contains, dict_getitem.
  destruct (dict_lookup entries (KStr "name")) as [n|];
    destruct (dict_lookup entries (KStr "value")) as [v|]; reflexivity.
Qed.

Lemma extract_loop_spec (items : list value) (res : dict) :
  extract_loop items res = assign_all (named_values items) res.
Proof.
  revert res. induction items as [|item rest IH]; intros res; simpl.
  - reflexivity.
  - rewrite extract_item_spec.
    destruct (well_formed_item item) as [[n v]|]; simpl.
    + destruct (dict_setitem res n v) as [res'|e]; simpl; [apply IH | reflexivity].
    + apply IH.
Qed.

Lemma assign_all_bindings (bindings : list (key * value)) (res : dict) :
  exists d,
    assign_all (map binding_pair bindings) res = Ok d
    /\ forall k, dict_lookup d k
                 = match last_value bindings k with
                   | Some v => Some v
                   | None => dict_lookup res k
                   end.
Proof.
  revert res. induction bindings as [|[k0 v0] rest IH]; intros res; simpl.
  - exists res. split; reflexivity.
  - unfold dict_setitem. simpl. rewrite to_key_of_key. simpl.
    destruct (IH (dict_set res k0 v0)) as (d & Hd & Hl).
    exists d. split; [exact Hd|].
    intros k. rewrite Hl, dict_lookup_set.
    destruct (last_value rest k); [reflexivity|].
    now destruct (key_eqb k0 k).
Qed.

Lemma last_value_some (bindings : list (key * value)) (k : key) :
  (exists v, last_value bindings k = Some v)
  <-> (exists k' v, In (k', v) bindings /\ key_eqb k' k = true).
Proof.
  induction bindings as [|[k0 v0] rest IH]; simpl.
  - split; [intros [v H]; discriminate | intros (k' & v & [] & _)].
  - split.
    + intros [v H]. destruct (last_value rest k) as [v'|] eqn:E.
      * destruct (proj1 IH (ex_intro _ v' eq_refl)) as (k' & w & Hin & Hk).
        exists k', w. split; [now right | exact Hk].
      * destruct (key_eqb k0 k) eqn:Ek; [|discriminate].
        exists k0, v0. split; [now left | exact Ek].
    + intros (k' & w & [Heq|Hin] & Hk).
      * injection Heq as -> ->. rewrite Hk.
        destruct (last_value rest k); eauto.
      * destruct (proj2 IH (ex_intro _ k' (ex_intro _ w (conj Hin Hk)))) as [v' Hv'].
        rewrite Hv'. eauto.
Qed.

(** C5.  The extractor returns an empty mapping, and raises nothing,
    when its input is not a list.  On a list it does [result[name] =
    value], in sequence order, for exactly the items that are mappings
    with both a [name] and a [value] key, and passes over the others.
    So, when the names are hashable, it returns a mapping in which each
    key holds the value of the last item of that name, and whose keys
    are the names of the well-formed items. *)
Theorem extract_parameters_contract :
  (forall parameters : value,
      is_list parameters = false -> extract_parameters parameters = Ok [])
  /\ (forall items : list value,
        extract_parameters (VList items) = assign_all (named_values items) [])
  /\ (forall (items : list value) (bindings : list (key * value)),
        named_values items = map binding_pair bindings ->
        exists d,
          extract_parameters (VList items) = Ok d
          /\ (forall k, dict_lookup d k = last_value bindings k)
          /\ (forall k, dict_contains d k = true
                        <-> exists k' v, In (k', v) bindings /\ key_eqb k' k = true)).
Proof.
  split; [|split].
  - intros parameters H. destruct parameters; try reflexivity. discriminate H.
  - intros items. apply extract_loop_spec.
  - intros items bindings Hb. simpl. rewrite extract_loop_spec, Hb.
    destruct (assign_all_bindings bindings []) as (d & Hd & Hl).
    assert (Hl' : forall k, dict_lookup d k = last_value bindings k).
    { intros k. rewrite Hl. now destruct (last_value bindings k). }
    exists d. split; [exact Hd|]. split; [exact Hl'|].
    intros k. unfold dict_contains. rewrite Hl', <- last_value_some.
    destruct (last_value bindings k) as [v|]; split; eauto; try discriminate.
    intros [v H]. discriminate H.
Qed.

(** A run of C5: a repeated name, a stray item, an item without value. *)
Lemma extract_parameters_contract_witness :
  let items :=
    [ VDict [(KStr "name", VStr "flightNumber"); (KStr "value", VStr "UA100")];
      VStr "stray";
      VDict [(KStr "name", VStr "phoneNumber")];
      VDict [(KStr "value", VStr "UA200"); (KStr "name", VStr "flightNumber")] ] in
  exists d,
    extract_parameters (VList items) = Ok d
    /\ (forall k, dict_lookup d k
                  = last_value [(KStr "flightNumber", VStr "UA100");
                                (KStr "flightNumber", VStr "UA200")] k)
    /\ (forall k, dict_contains d k = true
                  <-> exists k' v,
                        In (k', v) [(KStr "flightNumber", VStr "UA100");
                                    (KStr "flightNumber", VStr "UA200")]
                        /\ key_eqb k' k = true).
Proof.
  intros items.
  apply (proj2 (proj2 extract_parameters_contract) items).
  reflexivity.
Defined.


(** ** The entry point *)

Lemma lambda_try_unfold (entries : dict) :
  lambda_try (VDict entries)
  = match dict_lookup entries (KStr "actionGroup") with
    | None => Raise (KeyError (KStr "actionGroup"))
    | Some action_group =>
        match dict_lookup entries (KStr "function") with
        | None => Raise (KeyError (KStr "function"))
        | Some function_name =>
            match dict_lookup entries (KStr "agent") with
            | None => Raise (KeyError (KStr "agent"))
            | Some _ =>
                result_body <- after_fields action_group function_name
                                 (dict_get entries (KStr "parameters") (VList [])) ;;
                Ok (create_response action_group function_name result_body)
            end
        end
    end.
Proof.
  unfold lambda_try, getitem, get, dict_getitem, after_fields.
  destruct (dict_lookup entries (KStr "actionGroup")); [|reflexivity].
  destruct (dict_lookup entries (KStr "function")); [|reflexivity].
  destruct (dict_lookup entries (KStr "agent")); [|reflexivity].
  cbn [bind].
  destruct (logger_info _); [|reflexivity]. cbn [bind].
  destruct (extract_parameters _); [|reflexivity]. cbn [bind].
  destruct (logger_info _); reflexivity.
Qed.

(** Every error of the [try] block meets an [except] clause, and on a
    mapping event the clause returns its envelope. *)
Lemma lambda_handler_on_raise (entries : dict) (context : value) (e : exn) :
  lambda_try (VDict entries) = Raise e ->
  lambda_handler (VDict entries) context
  = Ok (create_response (field_or_unknown entries "actionGroup")
                        (field_or_unknown entries "function")
                        (error_body e)).
Proof.
  intros H. unfold lambda_handler. rewrite H. destruct e; reflexivity.
Qed.

Lemma lambda_handler_on_ok (entries : dict) (context : value) (response : value) :
  lambda_try (VDict entries) = Ok response ->
  lambda_handler (VDict entries) context = Ok response
  /\ exists action_group function_name agent result_body,
       dict_lookup entries (KStr "actionGroup") = Some action_group
       /\ dict_lookup entries (KStr "function") = Some function_name
       /\ dict_lookup entries (KStr "agent") = Some agent
       /\ after_fields action_group function_name
            (dict_get entries (KStr "parameters") (VList [])) = Ok result_body
       /\ response = create_response action_group function_name result_body.
Proof.
  intros H. split; [unfold lambda_handler; now rewrite H|].
  rewrite lambda_try_unfold in H.
  destruct (dict_lookup entries (KStr "actionGroup")) as [ag|]; [|discriminate].
  destruct (dict_lookup entries (KStr "function")) as [fn|]; [|discriminate].
  destruct (dict_lookup entries (KStr "agent")) as [agent|]; [|discriminate].
  destruct (after_fields ag fn _) as [body|] eqn:Ha; [|discriminate].
  injection H as <-. exists ag, fn, agent, body. tauto.
Qed.

(** On a mapping event the entry point returns an envelope built by
    [create_response] from the event's own action group and function
    (or ["unknown"]) and some text. *)
Lemma lambda_handler_envelope (entries : dict) (context : value) :
  exists body,
    lambda_handler (VDict entries) context
    = Ok (create_response (field_or_unknown entries "actionGroup")
                          (field_or_unknown entries "function")
                          body).
Proof.
  destruct (lambda_try (VDict entries)) as [response|e] eqn:H.
  - destruct (lambda_handler_on_ok _ context _ H)
      as (Hh & ag & fn & agent & body & Hag & Hfn & _ & _ & ->).
    exists body. rewrite Hh. unfold field_or_unknown, dict_get.
    now rewrite Hag, Hfn.
  - exists (error_body e). now apply lambda_handler_on_raise.
Qed.

Lemma create_response_well_formed (action_group function : value) (body : string) :
  well_formed_envelope (create_response action_group function body) = true.
Proof. reflexivity. Qed.

Lemma keys_are_map (d : dict) (names : list string) :
  keys_are d names = true -> map fst d = map KStr names.
Proof.
  revert names. induction d as [|[k v] d IH]; intros [|n names]; simpl;
    try discriminate; try reflexivity.
  - destruct k; discriminate.
  - destruct k; try discriminate.
    intros H. apply andb_true_iff in H as [Hk Hd].
    apply String.eqb_eq in Hk. subst. f_equal. now apply IH.
Qed.

Lemma has_keys_1 (v : value) (a : string) :
  has_keys [a] v = true -> exists x, v = VDict [(KStr a, x)].
Proof.
  destruct v; try discriminate. intros H. apply keys_are_map in H.
  destruct entries as [|[k x] [|? ?]]; try discriminate.
  simpl in H. injection H as ->. eauto.
Qed.

Lemma has_keys_2 (v : value) (a b : string) :
  has_keys [a; b] v = true -> exists x y, v = VDict [(KStr a, x); (KStr b, y)].
Proof.
  destruct v; try discriminate. intros H. apply keys_are_map in H.
  destruct entries as [|[k x] [|[k' y] [|? ?]]]; try discriminate.
  simpl in H. injection H as -> ->. eauto.
Qed.

Lemma has_keys_3 (v : value) (a b c : string) :
  has_keys [a; b; c] v = true ->
  exists x y z, v = VDict [(KStr a, x); (KStr b, y); (KStr c, z)].
Proof.
  destruct v; try discriminate. intros H. apply keys_are_map in H.
  destruct entries as [|[k x] [|[k' y] [|[k'' z] [|? ?]]]]; try discriminate.
  simpl in H. injection H as -> -> ->. eauto.
Qed.

(** The shape check accepts the envelopes [create_response] builds and
    nothing else. *)
Lemma well_formed_envelope_inv (v : value) :
  well_formed_envelope v = true ->
  exists action_group function body, v = create_response action_group function body.
Proof.
  unfold well_formed_envelope. rewrite !andb_true_iff.
  intros ((((((H0 & H1) & H2) & H3) & H4) & H5) & H6).
  apply has_keys_2 in H0 as (r & m & ->).
  unfold at_path in *. cbn in H1, H2, H3, H4, H5, H6.
  destruct m as [| |n| | |]; try discriminate.
  destruct n as [|[]|]; try discriminate. clear H1.
  apply has_keys_3 in H2 as (ag & fn & fr & ->). cbn in H3, H4, H5, H6.
  apply has_keys_1 in H3 as (rb & ->). cbn in H4, H5, H6.
  apply has_keys_1 in H4 as (tx & ->). cbn in H5, H6.
  apply has_keys_1 in H5 as (b & ->). cbn in H6.
  destruct b; try discriminate.
  exists ag, fn, s. reflexivity.
Qed.

(** C1, amended.  For every event that is a mapping and every context,
    the entry point returns a well-formed Response Envelope and does
    not raise; when field extraction, parameter extraction or routing
    fails, the failure is caught and the envelope carries the error body
    of its kind. *)
Theorem lambda_handler_returns_envelope (entries : dict) (context : value) :
  exists envelope,
    lambda_handler (VDict entries) context = Ok envelope
    /\ well_formed_envelope envelope = true
    /\ (forall e, lambda_try (VDict entries) = Raise e ->
                  envelope_body envelope = Some (VStr (error_body e))).
Proof.
  destruct (lambda_handler_envelope entries context) as [body Hb].
  eexists. split; [exact Hb|]. split; [apply create_response_well_formed|].
  intros e He. rewrite (lambda_handler_on_raise _ context _ He) in Hb.
  injection Hb as <-. reflexivity.
Qed.

(** C2, amended.  For every event that is a mapping and lacks one of
    [actionGroup], [function], [agent], the entry point returns an
    envelope whose body is the missing-field text with, between single
    quotes, the name of the first absent field in that order; the
    envelope's action group and function are the event's, or the
    literal ["unknown"] when the event has none. *)
Theorem lambda_handler_missing_field
  (entries : dict) (context : value) (field : string) :
  first_missing_field entries = Some field ->
  exists envelope,
    lambda_handler (VDict entries) context = Ok envelope
    /\ envelope_body envelope
       = Some (VStr ("Missing required field: '" ++ field
                     ++ "'. Please contact IT support."))
    /\ envelope_action_group envelope
       = Some (match dict_lookup entries (KStr "actionGroup") with
               | Some action_group => action_group
               | None => VStr "unknown"
               end)
    /\ envelope_function envelope
       = Some (match dict_lookup entries (KStr "function") with
               | Some function_name => function_name
               | None => VStr "unknown"
               end).
Proof.
  intros Hf.
  assert (He : lambda_try (VDict entries) = Raise (KeyError (KStr field))).
  { rewrite lambda_try_unfold.
    unfold first_missing_field, required_fields, dict_contains in Hf.
    cbn [find] in Hf.
    destruct (dict_lookup entries (KStr "actionGroup"));
      [|cbn in Hf; now injection Hf as <-].
    destruct (dict_lookup entries (KStr "function"));
      [|cbn in Hf; now injection Hf as <-].
    destruct (dict_lookup entries (KStr "agent"));
      [discriminate | cbn in Hf; now injection Hf as <-]. }
  eexists. split; [exact (lambda_handler_on_raise _ context _ He)|].
  assert (Hin : In field required_fields).
  { unfold first_missing_field in Hf. now apply find_some in Hf. }
  repeat split.
  destruct Hin as [<-|[<-|[<-|[]]]]; reflexivity.
Qed.

(** C7.  For all strings, the response builder returns the fixed
    envelope shape, with the action group, the function and the body it
    was given, unchanged; and the entry point hands the event's action
    group and function to it verbatim, when the call succeeds and when
    it fails. *)
Theorem create_response_passthrough :
  (forall action_group function body : string,
      let envelope := create_response (VStr action_group) (VStr function) body in
      well_formed_envelope envelope = true
      /\ envelope_action_group envelope = Some (VStr action_group)
      /\ envelope_function envelope = Some (VStr function)
      /\ envelope_body envelope = Some (VStr body)
      /\ lookup_path envelope ["messageVersion"] = Some (VInt 1))
  /\ (forall (entries : dict) (context : value) (action_group function_name : value),
        dict_lookup entries (KStr "actionGroup") = Some action_group ->
        dict_lookup entries (KStr "function") = Some function_name ->
        exists envelope,
          lambda_handler (VDict entries) context = Ok envelope
          /\ well_formed_envelope envelope = true
          /\ envelope_action_group envelope = Some action_group
          /\ envelope_function envelope = Some function_name).
Proof.
  split.
  - intros action_group function body. repeat split.
  - intros entries context ag fn Hag Hfn.
    destruct (lambda_handler_envelope entries context) as [body Hb].
    unfold field_or_unknown, dict_get in Hb. rewrite Hag, Hfn in Hb.
    eexists. split; [exact Hb|]. repeat split.
Qed.

(** C10.  For every event that is a mapping, whatever its fields and
    their values, and every context, the entry point returns an
    envelope and propagates no exception: either the [try] block
    returned it, or the block raised, an [except] clause caught the
    error, and the clause's permissive lookups on the event returned. *)
Theorem lambda_handler_total_on_mappings (entries : dict) (context : value) :
  (exists action_group function body,
      lambda_handler (VDict entries) context
      = Ok (create_response action_group function body))
  /\ (forall e, lambda_handler (VDict entries) context <> Raise e)
  /\ (forall e, lambda_try (VDict entries) = Raise e ->
        get (VDict entries) "actionGroup" (VStr "unknown")
        = Ok (field_or_unknown entries "actionGroup")
        /\ get (VDict entries) "function" (VStr "unknown")
           = Ok (field_or_unknown entries "function")
        /\ lambda_handler (VDict entries) context
           = Ok (create_response (field_or_unknown entries "actionGroup")
                                 (field_or_unknown entries "function")
                                 (error_body e))).
Proof.
  destruct (lambda_handler_envelope entries context) as [body Hb].
  split; [eauto|]. split.
  - intros e He. congruence.
  - intros e He. repeat split. now apply lambda_handler_on_raise.
Qed.


(** ** More on the router *)

Lemma prefix_nil (s : string) : prefix "" s = true.
Proof. now destruct s. Qed.

Lemma prefix_app_l (sub a b : string) :
  prefix sub a = true -> prefix sub (a ++ b) = true.
Proof.
  revert a. induction sub as [|c sub IH]; intros a H.
  - apply prefix_nil.
  - destruct a as [|c' a]; [discriminate H|]. simpl in *.
    destruct (ascii_dec c c'); [now apply IH | discriminate H].
Qed.

Lemma contains_app_l (a b sub : string) :
  contains a sub = true -> contains (a ++ b) sub = true.
Proof.
  induction a as [|c a IH]; intros H.
  - simpl in H. rewrite orb_false_r in H.
    destruct sub; [|discriminate H]. apply contains_prefix, prefix_nil.
  - change (String c a ++ b) with (String c (a ++ b)).
    rewrite contains_cons in *. apply orb_true_iff in H as [H|H].
    + change (String c (a ++ b)) with (String c a ++ b).
      now rewrite (prefix_app_l _ _ b H).
    + rewrite (IH H). apply orb_true_r.
Qed.

(** Finds a fixed phrase inside one of the pieces a text is appended
    from. *)
Ltac find_phrase :=
  first [ reflexivity
        | apply contains_app_l; reflexivity
        | apply contains_skip; find_phrase ].

Lemma offending_false_supplied (params : dict) (k : string) :
  offending params k = false <-> supplied params k.
Proof.
  unfold offending, supplied.
  destruct (dict_lookup params (KStr k)) as [v|]; split.
  - intros H. exists v. split; [reflexivity | now apply negb_false_iff].
  - intros (v' & [= <-] & Ht). now apply negb_false_iff.
  - discriminate.
  - intros (v' & H & _). discriminate.
Qed.

Lemma offending_keys_nil (params : dict) (required : list string) :
  offending_keys params required = [] <->
  (forall k, In k required -> supplied params k).
Proof.
  unfold offending_keys. induction required as [|k rest IH]; simpl.
  - split; [intros _ k [] | reflexivity].
  - destruct (offending params k) eqn:E.
    + split; [discriminate|]. intros H.
      assert (Hk : supplied params k) by (apply H; now left).
      apply offending_false_supplied in Hk. congruence.
    + rewrite IH. split.
      * intros H k' [<-|Hin]; [now apply offending_false_supplied | now apply H].
      * intros H k' Hin. apply H. now right.
Qed.

Lemma validate_ok_iff (params : dict) (required : list string) :
  validate_required_params params required = Ok tt
  <-> (forall k, In k required -> supplied params k).
Proof.
  rewrite <- offending_keys_nil, validate_required_params_unfold.
  destruct (offending_keys params required); split; try reflexivity; discriminate.
Qed.

(** What the router returns was made by the handler of a supported
    function from the values of validated keys. *)
Lemma route_ok_inv (function_name : value) (params : dict) (body : string) :
  route_function_call function_name params = Ok body ->
  exists f args,
    function_name = VStr (SupportedFunctions_value f)
    /\ validate_required_params params (required_keys f) = Ok tt
    /\ Forall2 (fun k v => dict_lookup params (KStr k) = Some v /\ truthy v = true)
               (subscripted_keys f) args
    /\ call_handler f args = Some (Ok body).
Proof.
  intros H.
  destruct (route_function_call_cases function_name params) as [[f ->]|Hu].
  - destruct (validate_required_params params (required_keys f)) as [[]|e] eqn:Hv.
    + destruct (route_after_validation _ _ Hv) as (args & outcome & Hargs & Hcall & Hr).
      exists f, args. repeat split; try assumption. congruence.
    + rewrite (route_validation_fails _ _ _ Hv) in H. discriminate.
  - rewrite Hu in H. destruct (format function_name); discriminate.
Qed.

Lemma string_app_nil_r (s : string) : s ++ "" = s.
Proof. induction s as [|c s IH]; simpl; [reflexivity | now rewrite IH]. Qed.

Lemma writable_VStr (s : string) : writable (VStr s).
Proof. exists s. apply format_str. Qed.

(** An f-string returns exactly when each of its fields is written. *)
Lemma fstring_ok_writable (pieces : list piece) (text : string) :
  fstring pieces = Ok text ->
  forall v, In (Val v) pieces -> writable v.
Proof.
  revert text. induction pieces as [|[s|v0] rest IH]; intros text H v Hin.
  - destruct Hin.
  - simpl in H. destruct (fstring rest) as [t|] eqn:E; [|discriminate].
    destruct Hin as [Hin|Hin]; [discriminate | now apply (IH t)].
  - simpl in H. unfold format in H.
    destruct (format_value v0) as [t0|] eqn:E0; [|discriminate].
    cbn [bind] in H. destruct (fstring rest) as [t|] eqn:E; [|discriminate].
    destruct Hin as [[= <-]|Hin]; [now exists t0 | now apply (IH t)].
Qed.

Lemma fstring_writable (pieces : list piece) :
  (forall v, In (Val v) pieces -> writable v) ->
  exists text, fstring pieces = Ok text.
Proof.
  induction pieces as [|[s|v0] rest IH]; intros H; simpl.
  - eauto.
  - destruct IH as [t ->]; [intros v Hin; apply H; now right|]. simpl. eauto.
  - destruct (H v0) as [t0 W]; [now left|]. rewrite (format_text _ _ W). simpl.
    destruct IH as [t ->]; [intros v Hin; apply H; now right|]. simpl. eauto.
Qed.

Ltac in_fields :=
  let w := fresh "w" in
  let Hin := fresh "Hin" in
  intros w Hin; simpl in Hin;
  repeat destruct Hin as [Hin|Hin];
  try discriminate Hin;
  try (injection Hin as <-; first [assumption | apply writable_VStr]);
  try contradiction.

(** A handler returns a text exactly when the interpreter writes each
    of its arguments: every one of them stands in one of its
    f-strings. *)
Lemma call_handler_returns_iff
  (f : SupportedFunctions) (args : list value) (outcome : result string) :
  call_handler f args = Some outcome ->
  ((exists text, outcome = Ok text) <-> Forall writable args).
Proof.
  intros H.
  destruct f; simpl in H;
    repeat match type of H with
           | context [match ?l with [] => _ | _ :: _ => _ end] =>
               destruct l; simpl in H
           end;
    try discriminate H; injection H as <-;
    unfold find_baggage, check_flight_status, book_flight, cancel_reservation,
      logger_info;
    match goal with
    | |- context [bind (bind (fstring ?a) _) (fun _ => fstring ?b)] =>
        split;
        [ intros [text Ht];
          destruct (fstring a) as [ta|] eqn:Ea; [|discriminate Ht];
          cbn [bind] in Ht;
          pose proof (fstring_ok_writable _ _ Ea) as Wa;
          pose proof (fstring_ok_writable _ _ Ht) as Wb;
          repeat (apply Forall_cons;
                  [first [ apply Wb; simpl; tauto | apply Wa; simpl; tauto ]|]);
          apply Forall_nil
        | intros Hw;
          repeat match goal with
                 | Hf : Forall _ (_ :: _) |- _ => inversion Hf; subst; clear Hf
                 end;
          destruct (fstring_writable a) as [ta ->]; [in_fields|];
          cbn [bind]; apply fstring_writable; in_fields ]
    end.
Qed.

(** X1.  With truthy [flightNumber] and [phoneNumber] entries that the
    interpreter writes, the router returns, for [find_baggage], the
    baggage text: it holds the flight, the fixed claim area and the
    phone number, as written. *)
Theorem route_find_baggage_text
  (params : dict) (flight_number phone_number : value) (flight phone : string) :
  dict_lookup params (KStr "flightNumber") = Some flight_number ->
  dict_lookup params (KStr "phoneNumber") = Some phone_number ->
  truthy flight_number = true ->
  truthy phone_number = true ->
  format_value flight_number = Text flight ->
  format_value phone_number = Text phone ->
  exists text,
    route_function_call (VStr "find_baggage") params = Ok text
    /\ text = "Found baggage information for flight " ++ flight
              ++ ". Your baggage is currently at baggage claim area B. "
              ++ "Contact number on file: " ++ phone
    /\ contains text flight = true
    /\ contains text "baggage claim area B" = true
    /\ contains text phone = true.
Proof.
  intros L1 L2 T1 T2 W1 W2.
  eexists. split; [|split; [reflexivity|]].
  - assert (Hv : validate_required_params params (required_keys FIND_BAGGAGE) = Ok tt).
    { apply validate_ok_iff. cbn [required_keys].
      intros k [<-|[<-|[]]]; eexists; eauto. }
    cbn [required_keys] in Hv.
    unfold route_function_call.
    cbn [SupportedFunctions_value eq_str String.eqb Ascii.eqb Bool.eqb].
    rewrite Hv. unfold dict_getitem. rewrite L1, L2. cbn [bind].
    unfold find_baggage, logger_info. cbn [fstring]. unfold format.
    rewrite W1, W2. cbn [bind]. now rewrite string_app_nil_r.
  - repeat split.
    + find_piece.
    + find_phrase.
    + find_piece.
Qed.

(** X2.  With a truthy [flightNumber] entry that the interpreter
    writes, the router returns, for [check_flight_status], the status
    text: it holds the flight as written and says it is on time. *)
Theorem route_check_flight_status_text
  (params : dict) (flight_number : value) (flight : string) :
  dict_lookup params (KStr "flightNumber") = Some flight_number ->
  truthy flight_number = true ->
  format_value flight_number = Text flight ->
  exists text,
    route_function_call (VStr "check_flight_status") params = Ok text
    /\ text = "Flight " ++ flight
              ++ " is currently on time. Departure: 3:30 PM, Arrival: 6:45 PM, Gate: A12"
    /\ contains text flight = true
    /\ contains text "on time" = true.
Proof.
  intros L1 T1 W1.
  eexists. split; [|split; [reflexivity|]].
  - assert (Hv : validate_required_params params (required_keys CHECK_FLIGHT_STATUS)
                 = Ok tt).
    { apply validate_ok_iff. cbn [required_keys].
      intros k [<-|[]]; eexists; eauto. }
    cbn [required_keys] in Hv.
    unfold route_function_call.
    cbn [SupportedFunctions_value eq_str String.eqb Ascii.eqb Bool.eqb].
    rewrite Hv. unfold dict_getitem. rewrite L1. cbn [bind].
    unfold check_flight_status, logger_info. cbn [fstring]. unfold format.
    rewrite W1. cbn [bind]. reflexivity.
  - split.
    + find_piece.
    + find_phrase.
Qed.

(** X3.  With truthy [confirmationCode] and [phoneNumber] entries that
    the interpreter writes, the router returns, for
    [cancel_reservation], the cancellation text: it is made of the
    confirmation code as written and of fixed words, among them the
    refund delay; the phone number is required and logged, and no
    field of the text is filled from it. *)
Theorem route_cancel_reservation_text
  (params : dict) (confirmation_code phone_number : value) (code phone : string) :
  dict_lookup params (KStr "confirmationCode") = Some confirmation_code ->
  dict_lookup params (KStr "phoneNumber") = Some phone_number ->
  truthy confirmation_code = true ->
  truthy phone_number = true ->
  format_value confirmation_code = Text code ->
  format_value phone_number = Text phone ->
  exists text,
    route_function_call (VStr "cancel_reservation") params = Ok text
    /\ text = "Reservation " ++ code
              ++ " has been successfully canceled. Refund will be processed to the original payment method within 3-5 business days."
    /\ contains text code = true
    /\ contains text "3-5 business days" = true.
Proof.
  intros L1 L2 T1 T2 W1 W2.
  eexists. split; [|split; [reflexivity|]].
  - assert (Hv : validate_required_params params (required_keys CANCEL_RESERVATION)
                 = Ok tt).
    { apply validate_ok_iff. cbn [required_keys].
      intros k [<-|[<-|[]]]; eexists; eauto. }
    cbn [required_keys] in Hv.
    unfold route_function_call.
    cbn [SupportedFunctions_value eq_str String.eqb Ascii.eqb Bool.eqb].
    rewrite Hv. unfold dict_getitem. rewrite L1, L2. cbn [bind].
    unfold cancel_reservation, logger_info. cbn [fstring]. unfold format.
    rewrite W1, W2. cbn [bind]. reflexivity.
  - split.
    + find_piece.
    + find_phrase.
Qed.

(** X4.  For each supported function, when some key of its required
    list is absent or falsy, the router raises the validator's error:
    the message lists the offending keys of that list, in its order. *)
Theorem route_validation_error (f : SupportedFunctions) (params : dict) :
  (exists k, In k (required_keys f) /\ absent_or_falsy params k) ->
  route_function_call (VStr (SupportedFunctions_value f)) params
  = Raise (ValueError ("Missing required parameters: "
                       ++ String.concat ", " (offending_keys params (required_keys f)))).
Proof.
  intros (k & Hin & Hk).
  apply route_validation_fails. rewrite validate_required_params_unfold.
  destruct (offending_keys params (required_keys f)) eqn:E; [|reflexivity].
  exfalso.
  assert (Hs : supplied params k)
    by (apply (proj1 (offending_keys_nil params (required_keys f)) E); exact Hin).
  apply offending_false_supplied in Hs. apply offending_iff in Hk. congruence.
Qed.

(** X5.  For each supported function the router returns a text exactly
    when every key of the function's required list has, in the
    parameter map, a truthy entry that the interpreter writes. *)
Theorem route_returns_iff (f : SupportedFunctions) (params : dict) :
  (exists text, route_function_call (VStr (SupportedFunctions_value f)) params = Ok text)
  <-> (forall k, In k (required_keys f) -> supplied_and_written params k).
Proof.
  split.
  - intros [text H].
    destruct (validate_required_params params (required_keys f)) as [[]|e] eqn:Hv;
      [|rewrite (route_validation_fails _ _ _ Hv) in H; discriminate].
    destruct (route_after_validation _ _ Hv) as (args & outcome & Hargs & Hcall & Hr).
    assert (Hw : Forall writable args).
    { apply (call_handler_returns_iff _ _ _ Hcall). exists text. congruence. }
    assert (Hall : forall k, In k (subscripted_keys f) -> supplied_and_written params k).
    { clear Hcall Hr Hv H. induction Hargs as [|k v ks vs [Hl Ht] _ IH].
      - intros k [].
      - inversion Hw; subst. intros k' [<-|Hin]; [now exists v | now apply IH]. }
    intros k Hin. apply Hall. destruct f; simpl in *; tauto.
  - intros H.
    assert (Hv : validate_required_params params (required_keys f) = Ok tt).
    { apply validate_ok_iff. intros k Hin.
      destruct (H k Hin) as (v & Hl & Ht & _). now exists v. }
    destruct (route_after_validation _ _ Hv) as (args & outcome & Hargs & Hcall & Hr).
    rewrite Hr. apply (call_handler_returns_iff _ _ _ Hcall).
    assert (Hsub : forall k, In k (subscripted_keys f) -> In k (required_keys f))
      by (destruct f; simpl; tauto).
    clear Hcall Hr Hv. induction Hargs as [|k v ks vs [Hl Ht] _ IH]; constructor.
    + destruct (H k) as (v' & Hl' & _ & Hw); [apply Hsub; now left|].
      congruence.
    + apply IH. intros k' Hin. apply Hsub. now right.
Qed.

(** X6.  A function name that is not a string matches none of the
    supported names: the router raises the unsupported-function error
    with the name as the interpreter writes it, or, when the
    interpreter cannot write the name, what the interpreter raises.  It
    never returns a text. *)
Theorem route_function_call_non_string (function_name : value) (params : dict) :
  is_str function_name = false ->
  route_function_call function_name params
  = match format_value function_name with
    | Text name =>
        Raise (ValueError
                 ("Unsupported function: " ++ name
                  ++ ". Supported: find_baggage, check_flight_status, book_flight, cancel_reservation"))
    | Fails why => Raise (format_exn why)
    end.
Proof.
  intros H.
  destruct (route_function_call_cases function_name params) as [[f ->]|Hu].
  - discriminate H.
  - rewrite Hu. unfold format. now destruct (format_value function_name).
Qed.

Lemma validate_agree (params params' : dict) (required : list string) :
  (forall k, In k required ->
             dict_lookup params (KStr k) = dict_lookup params' (KStr k)) ->
  validate_required_params params required
  = validate_required_params params' required.
Proof.
  intros H. rewrite !validate_required_params_unfold.
  assert (E : offending_keys params required = offending_keys params' required).
  { unfold offending_keys. apply filter_ext_in. intros k Hin.
    unfold offending. now rewrite (H k Hin). }
  now rewrite E.
Qed.

(** X7.  The router looks at nothing but the entries of the required
    keys of the function: two parameter maps that agree on them get the
    same answer, text or error. *)
Theorem route_function_call_agree (f : SupportedFunctions) (params params' : dict) :
  (forall k, In k (required_keys f) ->
             dict_lookup params (KStr k) = dict_lookup params' (KStr k)) ->
  route_function_call (VStr (SupportedFunctions_value f)) params
  = route_function_call (VStr (SupportedFunctions_value f)) params'.
Proof.
  intros H. pose proof (validate_agree _ _ _ H) as Hv.
  destruct f; cbn [required_keys] in *;
    unfold route_function_call, dict_getitem;
    cbn [SupportedFunctions_value eq_str String.eqb Ascii.eqb Bool.eqb];
    rewrite Hv;
    repeat match goal with
           | |- context [dict_lookup params (KStr ?k)] =>
               rewrite (H k ltac:(simpl; tauto))
           end;
    reflexivity.
Qed.

(** X8.  Validating against two lists put end to end succeeds exactly
    when validating against each succeeds, and the offending keys of
    the whole are those of the first list followed by those of the
    second. *)
Theorem validate_required_params_app (params : dict) (required more : list string) :
  (validate_required_params params (required ++ more)%list = Ok tt
   <-> validate_required_params params required = Ok tt
       /\ validate_required_params params more = Ok tt)
  /\ offending_keys params (required ++ more)%list
     = (offending_keys params required ++ offending_keys params more)%list.
Proof.
  split.
  - rewrite !validate_ok_iff. split.
    + intros H. split; intros k Hin; apply H, in_or_app; tauto.
    + intros [H1 H2] k Hin. apply in_app_or in Hin as [Hin|Hin]; auto.
  - apply filter_app.
Qed.


(** ** More on the parameter extractor *)

Lemma unhashable_name_setitem (res : dict) (item : value) :
  extract_item res item
  = if unhashable_name item then Raise TypeError
    else match well_formed_item item with
         | Some (n, v) =>
             match to_key n with
             | Some k => Ok (dict_set res k v)
             | None => Ok res
             end
         | None => Ok res
         end.
Proof.
  rewrite extract_item_spec. unfold unhashable_name, dict_setitem.
  destruct (well_formed_item item) as [[n v]|]; [|reflexivity].
  now destruct (to_key n).
Qed.

Lemma extract_loop_outcome (items : list value) (res : dict) :
  (extract_loop items res = Raise TypeError /\ existsb unhashable_name items = true)
  \/ ((exists d, extract_loop items res = Ok d)
      /\ existsb unhashable_name items = false).
Proof.
  revert res. induction items as [|item rest IH]; intros res; simpl.
  - right. eauto.
  - rewrite unhashable_name_setitem.
    destruct (unhashable_name item); simpl; [now left|].
    destruct (well_formed_item item) as [[n v]|]; [destruct (to_key n)|]; apply IH.
Qed.

(** X9.  The extractor fails in one way only: it raises [TypeError],
    and it does so exactly when its input is a list in which some item
    that passes the shape check has a name that cannot be hashed (a
    list or a mapping).  It never fails on a missing key. *)
Theorem extract_parameters_raises_iff (parameters : value) :
  ((exists d, extract_parameters parameters = Ok d)
   \/ extract_parameters parameters = Raise TypeError)
  /\ (extract_parameters parameters = Raise TypeError
      <-> exists items,
            parameters = VList items /\ existsb unhashable_name items = true).
Proof.
  destruct parameters;
    try (split; [left; eexists; reflexivity
                | split; [discriminate | intros (items & [=] & _)]]).
  simpl. destruct (extract_loop_outcome items []) as [[Hr Hb]|[[d Hd] Hb]].
  - split; [now right|]. split; [eauto|]. intros _. exact Hr.
  - split; [left; eauto|]. split.
    + intros H. congruence.
    + intros (items' & [= <-] & H). congruence.
Qed.







(** ** More on the entry point *)

(** The entry point on a mapping event, by the four fields it reads. *)
Lemma lambda_handler_answer (entries : dict) (context : value) :
  lambda_handler (VDict entries) context
  = Ok (entry_answer (dict_lookup entries (KStr "actionGroup"))
                     (dict_lookup entries (KStr "function"))
                     (dict_lookup entries (KStr "agent"))
                     (dict_get entries (KStr "parameters") (VList []))).
Proof.
  destruct (lambda_try (VDict entries)) as [response|e] eqn:H.
  - destruct (lambda_handler_on_ok _ context _ H)
      as (Hh & ag & fn & agent & body & Hag & Hfn & Ha & Hb & ->).
    rewrite Hh, Hag, Hfn, Ha. unfold entry_answer, response_text. now rewrite Hb.
  - rewrite (lambda_handler_on_raise _ context _ H).
    unfold field_or_unknown, dict_get, entry_answer, response_text.
    rewrite lambda_try_unfold in H.
    destruct (dict_lookup entries (KStr "actionGroup")) as [ag|];
      [|now injection H as <-].
    destruct (dict_lookup entries (KStr "function")) as [fn|];
      [|now injection H as <-].
    destruct (dict_lookup entries (KStr "agent")); [|now injection H as <-].
    unfold dict_get in H.
    destruct (after_fields ag fn _) as [text|e']; [discriminate | now injection H as <-].
Qed.

Lemma lambda_handler_with_fields
  (entries : dict) (context action_group function_name agent : value) :
  dict_lookup entries (KStr "actionGroup") = Some action_group ->
  dict_lookup entries (KStr "function") = Some function_name ->
  dict_lookup entries (KStr "agent") = Some agent ->
  lambda_handler (VDict entries) context
  = Ok (create_response action_group function_name
          (response_text action_group function_name
             (dict_get entries (KStr "parameters") (VList [])))).
Proof.
  intros Hag Hfn Ha. rewrite lambda_handler_answer, Hag, Hfn, Ha. reflexivity.
Qed.

(** When the interpreter writes what the two log messages of the [try]
    block hold, the block ends as the router does. *)
Lemma after_fields_route
  (action_group function_name parameters : value) (params : dict) :
  writable action_group ->
  writable function_name ->
  extract_parameters parameters = Ok params ->
  writable (keys params) ->
  after_fields action_group function_name parameters
  = route_function_call function_name params.
Proof.
  intros [ta Wa] [tf Wf] Hp [tk Wk].
  unfold after_fields, logger_info. cbn [fstring]. unfold format.
  rewrite Wa, Wf. cbn [bind]. rewrite Hp. cbn [bind]. rewrite Wk. reflexivity.
Qed.

(** X11.  When the event has its three fields and names a supported
    function, the interpreter writes the action group and the list of
    the extracted parameter names, and some required key of the
    function is absent or falsy in the extracted parameters, the entry
    point returns the envelope of the event's action group and function
    whose body is the validation-error text around the validator's
    message. *)
Theorem lambda_handler_validation_error
  (entries : dict) (context action_group agent : value)
  (f : SupportedFunctions) (params : dict) :
  dict_lookup entries (KStr "actionGroup") = Some action_group ->
  dict_lookup entries (KStr "function") = Some (VStr (SupportedFunctions_value f)) ->
  dict_lookup entries (KStr "agent") = Some agent ->
  writable action_group ->
  extract_parameters (dict_get entries (KStr "parameters") (VList [])) = Ok params ->
  writable (keys params) ->
  (exists k, In k (required_keys f) /\ absent_or_falsy params k) ->
  lambda_handler (VDict entries) context
  = Ok (create_response action_group (VStr (SupportedFunctions_value f))
          ("Validation error: Missing required parameters: "
           ++ String.concat ", " (offending_keys params (required_keys f))
           ++ ". Please check your input and try again.")).
Proof.
  intros Hag Hfn Ha Wag Hp Wk (k & Hin & Hk).
  rewrite (lambda_handler_with_fields _ _ _ _ _ Hag Hfn Ha).
  unfold response_text.
  rewrite (after_fields_route _ _ _ _ Wag (writable_VStr _) Hp Wk).
  assert (Hv : validate_required_params params (required_keys f)
               = Raise (ValueError
                          ("Missing required parameters: "
                           ++ String.concat ", " (offending_keys params (required_keys f))))).
  { rewrite validate_required_params_unfold.
    destruct (offending_keys params (required_keys f)) eqn:E; [|reflexivity].
    exfalso.
    assert (Hs : supplied params k)
      by (apply (proj1 (offending_keys_nil params (required_keys f)) E); exact Hin).
    apply offending_false_supplied in Hs. apply offending_iff in Hk. congruence. }
  rewrite (route_validation_fails _ _ _ Hv).
  reflexivity.
Qed.



(** X13.  When the event has its three fields and names a supported
    function, the interpreter writes the action group and the list of
    the extracted parameter names, and every required key of the
    function has, among the extracted parameters, a truthy value that
    the interpreter writes, the entry point returns the envelope of the
    event's action group and function whose body is the text the
    function's handler returns on the values at its keys. *)
Theorem lambda_handler_success
  (entries : dict) (context action_group agent : value)
  (f : SupportedFunctions) (params : dict) :
  dict_lookup entries (KStr "actionGroup") = Some action_group ->
  dict_lookup entries (KStr "function") = Some (VStr (SupportedFunctions_value f)) ->
  dict_lookup entries (KStr "agent") = Some agent ->
  writable action_group ->
  extract_parameters (dict_get entries (KStr "parameters") (VList [])) = Ok params ->
  writable (keys params) ->
  (forall k, In k (required_keys f) -> supplied_and_written params k) ->
  exists args text,
    Forall2 (fun k v => dict_lookup params (KStr k) = Some v)
            (subscripted_keys f) args
    /\ call_handler f args = Some (Ok text)
    /\ lambda_handler (VDict entries) context
       = Ok (create_response action_group (VStr (SupportedFunctions_value f)) text).
Proof.
  intros Hag Hfn Ha Wag Hp Wk Hs.
  assert (Hv : validate_required_params params (required_keys f) = Ok tt).
  { apply validate_ok_iff. intros k Hin.
    destruct (Hs k Hin) as (v & Hl & Ht & _). now exists v. }
  destruct (route_after_validation _ _ Hv) as (args & outcome & Hargs & Hcall & Hr).
  assert (Hw : Forall writable args).
  { assert (Hsub : forall k, In k (subscripted_keys f) -> In k (required_keys f))
      by (destruct f; simpl; tauto).
    clear Hcall Hr Hv. induction Hargs as [|k v ks vs [Hl Ht] _ IH]; constructor.
    - destruct (Hs k) as (v' & Hl' & _ & Hw); [apply Hsub; now left|]. congruence.
    - apply IH. intros k' Hin. apply Hsub. now right. }
  destruct (proj2 (call_handler_returns_iff _ _ _ Hcall) Hw) as [text ->].
  exists args, text. split; [|split; [exact Hcall|]].
  - clear Hcall Hr Hw. induction Hargs as [|k v ks vs [Hl _] _ IH]; constructor; auto.
  - rewrite (lambda_handler_with_fields _ _ _ _ _ Hag Hfn Ha).
    unfold response_text.
    rewrite (after_fields_route _ _ _ _ Wag (writable_VStr _) Hp Wk).
    now rewrite Hr.
Qed.

(** X14.  When the event has its three fields, the interpreter writes
    the action group and the function name, and one of the parameter
    items passes the shape check with a name that cannot be hashed, the
    entry point returns the envelope with the generic body, whether the
    function is supported or not: nothing of the underlying error
    reaches the caller, and the router is not reached. *)
Theorem lambda_handler_unexpected_error
  (entries : dict) (context action_group function_name agent : value)
  (items : list value) :
  dict_lookup entries (KStr "actionGroup") = Some action_group ->
  dict_lookup entries (KStr "function") = Some function_name ->
  dict_lookup entries (KStr "agent") = Some agent ->
  writable action_group ->
  writable function_name ->
  dict_lookup entries (KStr "parameters") = Some (VList items) ->
  existsb unhashable_name items = true ->
  lambda_handler (VDict entries) context
  = Ok (create_response action_group function_name
          "An unexpected error occurred. Please contact IT support.").
Proof.
  intros Hag Hfn Ha [ta Wa] [tf Wf] Hp Hu.
  rewrite (lambda_handler_with_fields _ _ _ _ _ Hag Hfn Ha).
  unfold response_text, dict_get. rewrite Hp.
  unfold after_fields, logger_info. cbn [fstring]. unfold format.
  rewrite Wa, Wf. cbn [bind]. simpl.
  destruct (extract_loop_outcome items []) as [[Hr _]|[_ Hb]]; [|congruence].
  now rewrite Hr.
Qed.

(** X15.  The entry point reads four fields of the event and nothing
    else, and of [agent] only whether it is there: two mapping events
    that agree on [actionGroup], [function] and [parameters] and both
    have, or both lack, [agent] get the same envelope, whatever the
    context. *)
Theorem lambda_handler_reads_four_fields
  (entries entries' : dict) (context context' : value) :
  dict_lookup entries (KStr "actionGroup") = dict_lookup entries' (KStr "actionGroup") ->
  dict_lookup entries (KStr "function") = dict_lookup entries' (KStr "function") ->
  dict_lookup entries (KStr "parameters") = dict_lookup entries' (KStr "parameters") ->
  dict_contains entries (KStr "agent") = dict_contains entries' (KStr "agent") ->
  lambda_handler (VDict entries) context = lambda_handler (VDict entries') context'.
Proof.
  intros Hag Hfn Hp Ha. rewrite !lambda_handler_answer.
  unfold dict_get, dict_contains in *. rewrite Hag, Hfn, Hp.
  destruct (dict_lookup entries (KStr "agent")),
           (dict_lookup entries' (KStr "agent")); try discriminate Ha;
    destruct (dict_lookup entries' (KStr "actionGroup")),
             (dict_lookup entries' (KStr "function")); reflexivity.
Qed.

(** X16.  An event whose [parameters] field is absent, or is not a
    list, is answered as if the field were the empty list. *)
Theorem lambda_handler_parameters_default (entries : dict) (context : value) :
  (forall items, dict_lookup entries (KStr "parameters") <> Some (VList items)) ->
  lambda_handler (VDict entries) context
  = lambda_handler (VDict (dict_set entries (KStr "parameters") (VList []))) context.
Proof.
  intros H. rewrite !lambda_handler_answer. unfold dict_get.
  rewrite !dict_lookup_set. cbn [key_eqb String.eqb Ascii.eqb Bool.eqb].
  destruct (dict_lookup entries (KStr "parameters")) as [v|]; [|reflexivity].
  destruct v; try reflexivity. now elim (H items).
Qed.

Lemma extract_parameters_error (parameters : value) (e : exn) :
  extract_parameters parameters = Raise e ->
  e = TypeError
  /\ exists items, parameters = VList items /\ existsb unhashable_name items = true.
Proof.
  destruct parameters; try discriminate. simpl.
  destruct (extract_loop_outcome items []) as [[Hr Hb]|[[d Hd] _]]; [|congruence].
  rewrite Hr. intros [= <-]. eauto.
Qed.

(** X20.  When the event has its three fields but the interpreter
    refuses to write the function name, or writes it and refuses to
    write the action group, the first log message of the [try] block
    raises: the entry point returns the envelope of the event's action
    group and function whose body is the validation-error text around
    the interpreter's message when too many digits were asked for, and
    the generic body when the value is nested too deep; the parameters
    are not looked at. *)
Theorem lambda_handler_unwritable_field
  (entries : dict) (context action_group function_name agent : value)
  (why : format_error) :
  dict_lookup entries (KStr "actionGroup") = Some action_group ->
  dict_lookup entries (KStr "function") = Some function_name ->
  dict_lookup entries (KStr "agent") = Some agent ->
  format_value function_name = Fails why
  \/ (writable function_name /\ format_value action_group = Fails why) ->
  lambda_handler (VDict entries) context
  = Ok (create_response action_group function_name
          match why with
          | DigitLimit msg =>
              "Validation error: " ++ msg ++ ". Please check your input and try again."
          | RecursionLimit =>
              "An unexpected error occurred. Please contact IT support."
          end).
Proof.
  intros Hag Hfn Ha Hw.
  rewrite (lambda_handler_with_fields _ _ _ _ _ Hag Hfn Ha).
  unfold response_text, after_fields, logger_info. cbn [fstring]. unfold format.
  destruct Hw as [Wf|[[tf Wf] Wa]]; rewrite Wf; [|rewrite Wa];
    cbn [bind]; now destruct why.
Qed.

(** What the [try] block raises after the fields are read is never a
    missing-key error. *)
Lemma after_fields_error
  (action_group function_name parameters : value) (e : exn) (k : key) :
  after_fields action_group function_name parameters = Raise e ->
  e <> KeyError k.
Proof.
  unfold after_fields, logger_info.
  destruct (fstring_outcome
              [ Lit "Processing function '"; Val function_name;
                Lit "' from action group '"; Val action_group; Lit "'" ])
    as [[t ->]|[why ->]]; cbn [bind];
    [|intros [= <-]; apply formatting_error_not_key; now exists why].
  destruct (extract_parameters parameters) as [params|e'] eqn:Hp; cbn [bind];
    [|intros [= <-]; destruct (extract_parameters_error _ _ Hp) as [-> _];
      discriminate].
  destruct (fstring_outcome [ Lit "Extracted parameters: "; Val (keys params) ])
    as [[t' ->]|[why ->]]; cbn [bind];
    [|intros [= <-]; apply formatting_error_not_key; now exists why].
  intros H.
  destruct (route_function_call_outcome function_name params)
    as [[body Hb]|(e' & He & [[msg ->]|Hf])]; try congruence.
  assert (e = e') by congruence. subst e'.
  now apply formatting_error_not_key.
Qed.

Lemma fstring_lit (s : string) (rest : list piece) (text : string) :
  fstring (Lit s :: rest) = Ok text -> exists t, text = s ++ t.
Proof.
  simpl. destruct (fstring rest) as [t|]; [|discriminate].
  intros [= <-]. eauto.
Qed.

(** A handler's text does not begin as a missing-field body does. *)
Lemma call_handler_text (f : SupportedFunctions) (args : list value) (text : string) :
  call_handler f args = Some (Ok text) ->
  prefix "Missing required field:" text = false.
Proof.
  intros H.
  destruct f; simpl in H;
    repeat match type of H with
           | context [match ?l with [] => _ | _ :: _ => _ end] =>
               destruct l; simpl in H
           end;
    try discriminate H; injection H as H;
    unfold find_baggage, check_flight_status, book_flight, cancel_reservation,
      logger_info in H;
    match type of H with
    | context [bind (bind (fstring ?a) _) _] =>
        destruct (fstring a); cbn [bind] in H; [|discriminate H]
    end;
    cbv zeta in H; apply fstring_lit in H as [t ->]; reflexivity.
Qed.

(** X17.  On a mapping event the body of the envelope begins with the
    missing-field prefix exactly when one of the three required fields
    is absent: no other outcome, whether a handler's text or the body
    of a validation failure, of an unsupported function, of a value the
    interpreter cannot write or of a name that cannot be hashed, begins
    that way. *)
Theorem lambda_handler_body_kind (entries : dict) (context : value) :
  exists body,
    lambda_handler (VDict entries) context
    = Ok (create_response (field_or_unknown entries "actionGroup")
                          (field_or_unknown entries "function") body)
    /\ (prefix "Missing required field:" body = true
        <-> first_missing_field entries <> None).
Proof.
  rewrite lambda_handler_answer.
  unfold field_or_unknown, dict_get, first_missing_field, required_fields,
    dict_contains, entry_answer.
  cbn [find].
  destruct (dict_lookup entries (KStr "actionGroup")) as [ag|];
    [|eexists; split; [reflexivity|]; cbn;
      split; [intros _; discriminate | reflexivity]].
  destruct (dict_lookup entries (KStr "function")) as [fn|];
    [|eexists; split; [reflexivity|]; cbn;
      split; [intros _; discriminate | reflexivity]].
  destruct (dict_lookup entries (KStr "agent")) as [ao|];
    [|eexists; split; [reflexivity|]; cbn;
      split; [intros _; discriminate | reflexivity]].
  cbn [negb or_unknown].
  eexists. split; [reflexivity|].
  assert (H : prefix "Missing required field:"
                (response_text ag fn
                   match dict_lookup entries (KStr "parameters") with
                   | Some v => v
                   | None => VList []
                   end) = false).
  { unfold response_text.
    destruct (after_fields ag fn _) as [text|e] eqn:Ha.
    - unfold after_fields in Ha.
      destruct (logger_info _); cbn [bind] in Ha; [|discriminate Ha].
      destruct (extract_parameters _); cbn [bind] in Ha; [|discriminate Ha].
      destruct (logger_info _); cbn [bind] in Ha; [|discriminate Ha].
      destruct (route_ok_inv _ _ _ Ha) as (f & args & _ & _ & _ & Hcall).
      exact (call_handler_text _ _ _ Hcall).
    - pose proof (fun k => after_fields_error _ _ _ _ k Ha) as Hk.
      destruct e; try reflexivity. now elim (Hk k). }
  rewrite H. split; [discriminate | intros Hn; now elim Hn].
Qed.

(** ** The extractor on filtered and appended sequences *)

Lemma named_values_filter (items : list value) :
  named_values (filter passes_shape_check items) = named_values items.
Proof.
  induction items as [|item rest IH]; simpl; [reflexivity|].
  unfold passes_shape_check at 1.
  destruct (well_formed_item item) as [nv|] eqn:E; simpl.
  - now rewrite E, IH.
  - exact IH.
Qed.

(** X18.  Items that fail the shape check (not a mapping, or no [name],
    or no [value]) count for nothing: the extractor gives the same
    result, mapping or error, on the sequence without them. *)
Theorem extract_parameters_skips_malformed (items : list value) :
  extract_parameters (VList items)
  = extract_parameters (VList (filter passes_shape_check items)).
Proof.
  simpl. now rewrite !extract_loop_spec, named_values_filter.
Qed.

Lemma extract_loop_app (items more : list value) (res : dict) :
  extract_loop (items ++ more)%list res
  = (d <- extract_loop items res ;; extract_loop more d).
Proof.
  revert res. induction items as [|item rest IH]; intros res; simpl.
  - reflexivity.
  - destruct (extract_item res item) as [res'|e]; simpl; [apply IH | reflexivity].
Qed.

(** A loop that returns has stored hashable names only. *)
Lemma extract_loop_bindings (items : list value) (res d : dict) :
  extract_loop items res = Ok d ->
  exists bindings, named_values items = map binding_pair bindings.
Proof.
  revert res. induction items as [|item rest IH]; intros res; simpl.
  - intros _. now exists [].
  - rewrite extract_item_spec.
    destruct (well_formed_item item) as [[n v]|]; [|apply IH].
    unfold dict_setitem. destruct (to_key n) as [k|] eqn:E; [|discriminate].
    simpl. intros H. destruct (IH _ H) as [bindings Hb].
    exists ((k, v) :: bindings). simpl. rewrite <- Hb. unfold binding_pair. simpl.
    destruct n; try discriminate E; injection E as <-; reflexivity.
Qed.

Lemma extract_loop_lookup (items : list value) (res d : dict) :
  extract_loop items res = Ok d ->
  exists d0,
    extract_loop items [] = Ok d0
    /\ forall k, dict_lookup d k
                 = match dict_lookup d0 k with
                   | Some v => Some v
                   | None => dict_lookup res k
                   end.
Proof.
  intros H. destruct (extract_loop_bindings _ _ _ H) as [bindings Hb].
  rewrite extract_loop_spec, Hb in H. rewrite extract_loop_spec, Hb.
  destruct (assign_all_bindings bindings res) as (d' & Hd' & Hl').
  destruct (assign_all_bindings bindings []) as (d0 & Hd0 & Hl0).
  assert (d' = d) by congruence. subst d'.
  exists d0. split; [exact Hd0|].
  intros k. rewrite Hl', Hl0. now destruct (last_value bindings k).
Qed.

(** X19.  Extracting from two sequences put end to end merges the two
    results, the later one first: when both extractions return, so does
    the extraction of the whole, and each key holds the value the second
    mapping has for it, or else the one the first has. *)
Theorem extract_parameters_app (items more : list value) (d1 d2 : dict) :
  extract_parameters (VList items) = Ok d1 ->
  extract_parameters (VList more) = Ok d2 ->
  exists d,
    extract_parameters (VList (items ++ more)%list) = Ok d
    /\ forall k, dict_lookup d k
                 = match dict_lookup d2 k with
                   | Some v => Some v
                   | None => dict_lookup d1 k
                   end.
Proof.
  simpl. intros H1 H2.
  rewrite extract_loop_app, H1. cbn [bind].
  destruct (extract_loop_bindings _ _ _ H2) as [bindings Hb].
  destruct (assign_all_bindings bindings d1) as (d & Hd & Hl).
  exists d. split; [now rewrite extract_loop_spec, Hb|].
  assert (H : extract_loop more d1 = Ok d) by now rewrite extract_loop_spec, Hb.
  destruct (extract_loop_lookup _ _ _ H) as (d0 & Hd0 & Hl0).
  assert (d0 = d2) by congruence. subst d0. exact Hl0.
Qed.


End Program.

(** ** Runs on concrete inputs

    From here on the interpreter is the one with the default limits. *)

#[local] Existing Instance default_interpreter.

(** A run of C9 on the [check_flight_status] branch. *)
Lemma route_function_call_no_missing_key_witness :
  let params := [(KStr "flightNumber", VStr "DL42")] in
  Forall (fun k => dict_contains params (KStr k) = true) ["flightNumber"]
  /\ exists args outcome,
       Forall2 (fun k v => dict_getitem params (KStr k) = Ok v) ["flightNumber"] args
       /\ call_handler CHECK_FLIGHT_STATUS args = Some outcome
       /\ route_function_call (VStr "check_flight_status") params = outcome
       /\ forall k, outcome <> Raise (KeyError k).
Proof.
  intros params.
  apply (proj1 route_function_call_no_missing_key CHECK_FLIGHT_STATUS params).
  reflexivity.
Defined.

(** C4 fails as stated.  With an empty parameter map both required keys
    of [find_baggage] are missing, and the message names [phoneNumber]
    first: it is not the message that lists [flightNumber] first. *)
Lemma route_find_baggage_order_counterexample :
  route_function_call (VStr "find_baggage") []
  = Raise (ValueError "Missing required parameters: phoneNumber, flightNumber")
  /\ route_function_call (VStr "find_baggage") []
     <> Raise (ValueError "Missing required parameters: flightNumber, phoneNumber").
Proof.
  split; [reflexivity | discriminate].
Qed.

(** A run of the amended C4: one key falsy, the other absent. *)
Lemma route_find_baggage_both_missing_witness :
  route_function_call (VStr "find_baggage")
    [(KStr "flightNumber", VStr ""); (KStr "seat", VStr "12A")]
  = Raise (ValueError "Missing required parameters: phoneNumber, flightNumber").
Proof.
  apply route_find_baggage_both_missing.
  - right. exists (VStr ""). split; reflexivity.
  - left. reflexivity.
Defined.

(** A run of C6. *)
Lemma route_function_call_unsupported_witness :
  route_function_call (VStr "upgrade_seat") [(KStr "flightNumber", VStr "UA100")]
  = Raise (ValueError
             "Unsupported function: upgrade_seat. Supported: find_baggage, check_flight_status, book_flight, cancel_reservation").
Proof.
  apply (route_function_call_unsupported "upgrade_seat").
  simpl. intros [H|[H|[H|[H|[]]]]]; discriminate H.
Defined.

(** A run of C8 on string values. *)
Lemma route_book_flight_text_witness :
  exists text,
    route_function_call (VStr "book_flight")
      [ (KStr "departureCity", VStr "Boston");
        (KStr "arrivalCity", VStr "Denver");
        (KStr "departureDate", VStr "2024-05-01");
        (KStr "passengerName", VStr "Ada Lovelace");
        (KStr "phoneNumber", VStr "555-1234") ] = Ok text
    /\ contains text "ABC123" = true
    /\ contains text "Boston" = true
    /\ contains text "Denver" = true
    /\ contains text "2024-05-01" = true
    /\ contains text "Ada Lovelace" = true
    /\ contains text "555-1234" = true.
Proof.
  apply (route_book_flight_text _
           (VStr "Boston") (VStr "Denver") (VStr "2024-05-01")
           (VStr "Ada Lovelace") (VStr "555-1234")); reflexivity.
Defined.

(** C1 fails as stated.  An event that is not a mapping makes the first
    subscript raise; the last [except] clause catches that and then
    calls [event.get], which the value does not have: the entry point
    raises instead of returning an envelope. *)
Lemma lambda_handler_raises_counterexample :
  lambda_handler (VList []) VNone = Raise AttributeError
  /\ lambda_handler VNone VNone = Raise AttributeError
  /\ lambda_handler (VStr "find_baggage") VNone = Raise AttributeError.
Proof. repeat split. Qed.

(** C2 fails as stated.  An event without [function] gets a body in
    which the field name stands between single quotes, as [str] writes
    a [KeyError]; it is not the body with the bare name. *)
Lemma lambda_handler_missing_field_counterexample :
  lambda_handler
    (VDict [(KStr "actionGroup", VStr "baggage"); (KStr "agent", VStr "a1")]) VNone
  = Ok (create_response (VStr "baggage") (VStr "unknown")
          "Missing required field: 'function'. Please contact IT support.")
  /\ lambda_handler
       (VDict [(KStr "actionGroup", VStr "baggage"); (KStr "agent", VStr "a1")]) VNone
     <> Ok (create_response (VStr "baggage") (VStr "unknown")
              "Missing required field: function. Please contact IT support.").
Proof. split; [reflexivity | discriminate]. Qed.

(** A run of the amended C2: [function] is the first absent field. *)
Lemma lambda_handler_missing_field_witness :
  exists envelope,
    lambda_handler (VDict [(KStr "actionGroup", VStr "baggage")]) VNone = Ok envelope
    /\ envelope_body envelope
       = Some (VStr "Missing required field: 'function'. Please contact IT support.")
    /\ envelope_action_group envelope = Some (VStr "baggage")
    /\ envelope_function envelope = Some (VStr "unknown").
Proof.
  apply (lambda_handler_missing_field
           [(KStr "actionGroup", VStr "baggage")] VNone "function").
  reflexivity.
Defined.

(** A run of C7 on the error path: the function is not a supported one. *)
Lemma create_response_passthrough_witness :
  exists envelope,
    lambda_handler
      (VDict [ (KStr "actionGroup", VStr "Baggage Desk");
               (KStr "function", VStr "teleport");
               (KStr "agent", VDict []) ]) VNone = Ok envelope
    /\ well_formed_envelope envelope = true
    /\ envelope_action_group envelope = Some (VStr "Baggage Desk")
    /\ envelope_function envelope = Some (VStr "teleport").
Proof.
  apply (proj2 create_response_passthrough); reflexivity.
Defined.

(** A run of X1. *)
Lemma route_find_baggage_text_witness :
  exists text,
    route_function_call (VStr "find_baggage")
      [(KStr "phoneNumber", VStr "555-1234"); (KStr "flightNumber", VStr "UA100")]
    = Ok text
    /\ text = "Found baggage information for flight UA100. Your baggage is currently at baggage claim area B. Contact number on file: 555-1234"
    /\ contains text "UA100" = true
    /\ contains text "baggage claim area B" = true
    /\ contains text "555-1234" = true.
Proof.
  apply (route_find_baggage_text _ (VStr "UA100") (VStr "555-1234")
           "UA100" "555-1234"); reflexivity.
Defined.

(** A run of X2, on a number. *)
Lemma route_check_flight_status_text_witness :
  exists text,
    route_function_call (VStr "check_flight_status")
      [(KStr "flightNumber", VInt 42)] = Ok text
    /\ text = "Flight 42 is currently on time. Departure: 3:30 PM, Arrival: 6:45 PM, Gate: A12"
    /\ contains text "42" = true
    /\ contains text "on time" = true.
Proof.
  apply (route_check_flight_status_text _ (VInt 42) "42"); reflexivity.
Defined.

(** A run of X3: the phone number ["5"] is found in the text, in the
    words of the refund delay. *)
Lemma route_cancel_reservation_text_witness :
  exists text,
    route_function_call (VStr "cancel_reservation")
      [(KStr "confirmationCode", VStr "XYZ9"); (KStr "phoneNumber", VStr "5")]
    = Ok text
    /\ text = "Reservation XYZ9 has been successfully canceled. Refund will be processed to the original payment method within 3-5 business days."
    /\ contains text "XYZ9" = true
    /\ contains text "3-5 business days" = true.
Proof.
  apply (route_cancel_reservation_text _ (VStr "XYZ9") (VStr "5") "XYZ9" "5");
    reflexivity.
Defined.

(** A run of X4: of the five keys of [book_flight], two are offending. *)
Lemma route_validation_error_witness :
  route_function_call (VStr "book_flight")
    [ (KStr "departureCity", VStr "Boston");
      (KStr "arrivalCity", VStr "");
      (KStr "departureDate", VStr "2024-05-01");
      (KStr "phoneNumber", VStr "555-1234") ]
  = Raise (ValueError "Missing required parameters: arrivalCity, passengerName").
Proof.
  apply (route_validation_error BOOK_FLIGHT).
  exists "passengerName". split; [simpl; tauto | left; reflexivity].
Defined.

(** A run of X6. *)
Lemma route_function_call_non_string_witness :
  route_function_call (VList [VStr "find_baggage"]) []
  = Raise (ValueError
             "Unsupported function: ['find_baggage']. Supported: find_baggage, check_flight_status, book_flight, cancel_reservation").
Proof.
  exact (route_function_call_non_string (VList [VStr "find_baggage"]) [] eq_refl).
Defined.

(** A run of X7: an extra entry and another order change nothing. *)
Lemma route_function_call_agree_witness :
  route_function_call (VStr "find_baggage")
    [(KStr "flightNumber", VStr "UA100"); (KStr "phoneNumber", VStr "555-1234")]
  = route_function_call (VStr "find_baggage")
      [ (KStr "seat", VStr "12A");
        (KStr "phoneNumber", VStr "555-1234");
        (KStr "flightNumber", VStr "UA100") ].
Proof.
  apply (route_function_call_agree FIND_BAGGAGE).
  intros k [<-|[<-|[]]]; reflexivity.
Defined.

(** A run of X11: no [parameters] field at all. *)
Lemma lambda_handler_validation_error_witness :
  lambda_handler
    (VDict [ (KStr "actionGroup", VStr "baggage");
             (KStr "function", VStr "cancel_reservation");
             (KStr "agent", VDict []) ]) VNone
  = Ok (create_response (VStr "baggage") (VStr "cancel_reservation")
          "Validation error: Missing required parameters: confirmationCode, phoneNumber. Please check your input and try again.").
Proof.
  apply (lambda_handler_validation_error _ VNone (VStr "baggage") (VDict [])
           CANCEL_RESERVATION []); try reflexivity.
  - now exists "baggage".
  - now exists "[]".
  - exists "phoneNumber". split; [simpl; tauto | left; reflexivity].
Defined.


(** A run of X13. *)
Lemma lambda_handler_success_witness :
  exists args text,
    Forall2 (fun k v =>
               dict_lookup [(KStr "flightNumber", VStr "DL42")] (KStr k) = Some v)
            ["flightNumber"] args
    /\ call_handler CHECK_FLIGHT_STATUS args = Some (Ok text)
    /\ lambda_handler
         (VDict [ (KStr "actionGroup", VStr "flights");
                  (KStr "function", VStr "check_flight_status");
                  (KStr "parameters",
                   VList [VDict [(KStr "name", VStr "flightNumber");
                                 (KStr "value", VStr "DL42")]]);
                  (KStr "agent", VDict []) ]) VNone
       = Ok (create_response (VStr "flights") (VStr "check_flight_status") text).
Proof.
  apply (lambda_handler_success _ VNone (VStr "flights") (VDict [])
           CHECK_FLIGHT_STATUS [(KStr "flightNumber", VStr "DL42")]);
    try reflexivity.
  - now exists "flights".
  - now exists "['flightNumber']".
  - intros k [<-|[]]. exists (VStr "DL42").
    split; [reflexivity|]. split; [reflexivity|]. now exists "DL42".
Defined.

(** A run of X14 with a function that is not supported. *)
Lemma lambda_handler_unexpected_error_witness :
  lambda_handler
    (VDict [ (KStr "actionGroup", VStr "baggage");
             (KStr "function", VStr "teleport");
             (KStr "parameters",
              VList [VDict [(KStr "name", VDict []); (KStr "value", VStr "UA100")]]);
             (KStr "agent", VDict []) ]) VNone
  = Ok (create_response (VStr "baggage") (VStr "teleport")
          "An unexpected error occurred. Please contact IT support.").
Proof.
  apply (lambda_handler_unexpected_error _ VNone (VStr "baggage") (VStr "teleport")
           (VDict [])
           [VDict [(KStr "name", VDict []); (KStr "value", VStr "UA100")]]);
    try reflexivity.
  - now exists "baggage".
  - now exists "teleport".
Defined.

(** A run of X15: another agent, another order, a field more. *)
Lemma lambda_handler_reads_four_fields_witness :
  lambda_handler
    (VDict [ (KStr "actionGroup", VStr "flights");
             (KStr "function", VStr "check_flight_status");
             (KStr "agent", VStr "a1") ]) VNone
  = lambda_handler
      (VDict [ (KStr "sessionId", VStr "s-77");
               (KStr "agent", VDict [(KStr "name", VStr "a2")]);
               (KStr "function", VStr "check_flight_status");
               (KStr "actionGroup", VStr "flights") ]) (VInt 3).
Proof.
  apply lambda_handler_reads_four_fields; reflexivity.
Defined.

(** A run of X16: [parameters] is a mapping, not a list. *)
Lemma lambda_handler_parameters_default_witness :
  lambda_handler
    (VDict [ (KStr "actionGroup", VStr "flights");
             (KStr "function", VStr "check_flight_status");
             (KStr "parameters",
              VDict [(KStr "name", VStr "flightNumber"); (KStr "value", VStr "DL42")]);
             (KStr "agent", VStr "a1") ]) VNone
  = lambda_handler
      (VDict [ (KStr "actionGroup", VStr "flights");
               (KStr "function", VStr "check_flight_status");
               (KStr "parameters", VList []);
               (KStr "agent", VStr "a1") ]) VNone.
Proof.
  apply (lambda_handler_parameters_default
           [ (KStr "actionGroup", VStr "flights");
             (KStr "function", VStr "check_flight_status");
             (KStr "parameters",
              VDict [(KStr "name", VStr "flightNumber"); (KStr "value", VStr "DL42")]);
             (KStr "agent", VStr "a1") ] VNone).
  intros items. discriminate.
Defined.

(** A run of X19: the second sequence overrides [flightNumber]. *)
Lemma extract_parameters_app_witness :
  exists d,
    extract_parameters
      (VList [ VDict [(KStr "name", VStr "flightNumber"); (KStr "value", VStr "UA100")];
               VDict [(KStr "name", VStr "phoneNumber"); (KStr "value", VStr "555-1234")];
               VDict [(KStr "name", VStr "flightNumber"); (KStr "value", VStr "UA200")] ])
    = Ok d
    /\ forall k,
         dict_lookup d k
         = match dict_lookup [(KStr "flightNumber", VStr "UA200")] k with
           | Some v => Some v
           | None =>
               dict_lookup [ (KStr "flightNumber", VStr "UA100");
                             (KStr "phoneNumber", VStr "555-1234") ] k
           end.
Proof.
  apply (extract_parameters_app
           [ VDict [(KStr "name", VStr "flightNumber"); (KStr "value", VStr "UA100")];
             VDict [(KStr "name", VStr "phoneNumber"); (KStr "value", VStr "555-1234")] ]
           [ VDict [(KStr "name", VStr "flightNumber"); (KStr "value", VStr "UA200")] ]);
    reflexivity.
Defined.

(** A run of X20: an action group of 4301 digits. *)
Lemma lambda_handler_unwritable_field_witness :
  lambda_handler
    (VDict [ (KStr "actionGroup", VInt (10 ^ 4300));
             (KStr "function", VStr "check_flight_status");
             (KStr "agent", VDict []) ]) VNone
  = Ok (create_response (VInt (10 ^ 4300)) (VStr "check_flight_status")
          ("Validation error: " ++ digit_limit_message 4300
           ++ ". Please check your input and try again.")).
Proof.
  apply (lambda_handler_unwritable_field _ VNone (VInt (10 ^ 4300))
           (VStr "check_flight_status") (VDict [])
           (DigitLimit (digit_limit_message 4300))); try reflexivity.
  right. split; [now exists "check_flight_status" | vm_compute; reflexivity].
Defined.

(** ** Sample runs *)

Example route_find_baggage_run :
  route_function_call (VStr "find_baggage")
    [(KStr "flightNumber", VStr "UA100"); (KStr "phoneNumber", VStr "555-1234")]
  = Ok "Found baggage information for flight UA100. Your baggage is currently at baggage claim area B. Contact number on file: 555-1234".
Proof. reflexivity. Qed.

Example route_cancel_reservation_run :
  route_function_call (VStr "cancel_reservation")
    [(KStr "confirmationCode", VStr "XYZ9"); (KStr "phoneNumber", VStr "555-0000")]
  = Ok "Reservation XYZ9 has been successfully canceled. Refund will be processed to the original payment method within 3-5 business days.".
Proof. reflexivity. Qed.

(** A value that is not a string is written as [str] writes it. *)
Example route_check_flight_status_number :
  route_function_call (VStr "check_flight_status") [(KStr "flightNumber", VInt 42)]
  = Ok "Flight 42 is currently on time. Departure: 3:30 PM, Arrival: 6:45 PM, Gate: A12".
Proof. reflexivity. Qed.

Example lambda_handler_without_parameters :
  lambda_handler
    (VDict [ (KStr "actionGroup", VStr "baggage");
             (KStr "function", VStr "find_baggage");
             (KStr "agent", VDict []) ]) VNone
  = Ok (create_response (VStr "baggage") (VStr "find_baggage")
          "Validation error: Missing required parameters: phoneNumber, flightNumber. Please check your input and try again.").
Proof. reflexivity. Qed.

(** A name that cannot be hashed makes the store fail; the entry point
    answers with the generic body. *)
Example extract_parameters_unhashable_name :
  extract_parameters
    (VList [VDict [(KStr "name", VList []); (KStr "value", VStr "UA100")]])
  = Raise TypeError.
Proof. reflexivity. Qed.

Example lambda_handler_unhashable_name :
  lambda_handler
    (VDict [ (KStr "actionGroup", VStr "baggage");
             (KStr "function", VStr "find_baggage");
             (KStr "parameters",
              VList [VDict [(KStr "name", VList []); (KStr "value", VStr "UA100")]]);
             (KStr "agent", VDict []) ]) VNone
  = Ok (create_response (VStr "baggage") (VStr "find_baggage")
          "An unexpected error occurred. Please contact IT support.").
Proof. reflexivity. Qed.

(** An integer of 4301 digits is more than the interpreter converts:
    the handler's f-string raises, and the entry point answers with a
    validation-error body that carries the interpreter's message. *)
Example route_check_flight_status_long_number :
  route_function_call (VStr "check_flight_status")
    [(KStr "flightNumber", VInt (10 ^ 4300))]
  = Raise (ValueError "Exceeds the limit (4300 digits) for integer string conversion; use sys.set_int_max_str_digits() to increase the limit").
Proof. vm_compute. reflexivity. Qed.

Example route_book_flight_long_number :
  route_function_call (VStr "book_flight")
    [ (KStr "departureCity", VStr "Boston");
      (KStr "arrivalCity", VStr "Denver");
      (KStr "departureDate", VInt (10 ^ 4300));
      (KStr "passengerName", VStr "Ada Lovelace");
      (KStr "phoneNumber", VStr "555-1234") ]
  = Raise (ValueError "Exceeds the limit (4300 digits) for integer string conversion; use sys.set_int_max_str_digits() to increase the limit").
Proof. vm_compute. reflexivity. Qed.

Example lambda_handler_long_action_group :
  lambda_handler
    (VDict [ (KStr "actionGroup", VInt (10 ^ 4300));
             (KStr "function", VStr "check_flight_status");
             (KStr "parameters",
              VList [VDict [(KStr "name", VStr "flightNumber");
                            (KStr "value", VStr "DL42")]]);
             (KStr "agent", VDict []) ]) VNone
  = Ok (create_response (VInt (10 ^ 4300)) (VStr "check_flight_status")
          "Validation error: Exceeds the limit (4300 digits) for integer string conversion; use sys.set_int_max_str_digits() to increase the limit. Please check your input and try again.").
Proof. vm_compute. reflexivity. Qed.

(** A function name nested deeper than the interpreter has room for:
    the first log message of the [try] block raises [RecursionError],
    and the entry point answers with the generic body. *)
Example lambda_handler_deep_function :
  lambda_handler
    (VDict [ (KStr "actionGroup", VStr "baggage");
             (KStr "function", nested 1000);
             (KStr "agent", VDict []) ]) VNone
  = Ok (create_response (VStr "baggage") (nested 1000)
          "An unexpected error occurred. Please contact IT support.").
Proof. vm_compute. reflexivity. Qed.
